(** * INE web-service client: the flattening of DATOS_TABLA responses

    A shallow embedding of [notebooks/ine_utils.py] and
    [notebooks/ine_cli.py].  The HTTP round trip is left out: every
    function below starts from the value that [response.json()] returned,
    a JSON array of objects.  The data-frame calls are modelled as pandas 2
    performs them.

    - [Py]       Python values, dictionaries, exceptions, [str.strip];
    - [Numeric]  the decimal literals read by the numeric coercions;
    - [Frame]    the data-frame operations the client calls;
    - [IneUtils] [descargar_tabla_ine_json];
    - [IneCli]   [get_operaciones], [get_tablas], [get_datos_tabla] and the
                 three commands. *)

From Stdlib Require Import List String Ascii Bool Arith ZArith QArith Lia.
Import ListNotations.

Local Open Scope string_scope.
Local Open Scope list_scope.
Local Open Scope nat_scope.

Set Implicit Arguments.
Set Warnings "-register-all".

(* ===================================================================== *)
(** * Python values and exceptions *)
(* ===================================================================== *)

Module Py.

(** What [json.loads] builds.  A [float] is carried by the rational its
    literal denotes; rounding to binary64 is outside the model.  A [dict]
    keeps its insertion order. *)
Inductive value : Type :=
| VNone
| VBool (b : bool)
| VInt (n : Z)
| VFloat (q : Q)
| VStr (s : string)
| VList (l : list value)
| VDict (kv : list (string * value)).

(** A JSON object. *)
Definition record : Type := list (string * value).

(** The exceptions the modelled code can raise.  [NotModelled] marks an
    input on which the library's behaviour is not part of this model. *)
Inductive exn : Type :=
| KeyError (k : string)
| TypeError
| AttributeError
| ValueError
| ReError
| NotModelled.

Inductive result (A : Type) : Type :=
| Ok (a : A)
| Raise (e : exn).

Arguments Ok {A} a.
Arguments Raise {A} e.

Definition bind {A B : Type} (m : result A) (f : A -> result B) : result B :=
  match m with
  | Ok a => f a
  | Raise e => Raise e
  end.

(** [d.get(k)]: the first binding of [k]. *)
Fixpoint get (k : string) (d : record) : option value :=
  match d with
  | [] => None
  | (k', v) :: d' => if String.eqb k k' then Some v else get k d'
  end.

(** [d.get(k, default)]. *)
Definition get_default (k : string) (default : value) (d : record) : value :=
  match get k d with
  | Some v => v
  | None => default
  end.

(** [d[k]] on a dictionary. *)
Definition getitem (k : string) (d : record) : result value :=
  match get k d with
  | Some v => Ok v
  | None => Raise (KeyError k)
  end.

(** [x[k]] with a string key on any value: only a dictionary accepts it. *)
Definition subscript (x : value) (k : string) : result value :=
  match x with
  | VDict kv => getitem k kv
  | _ => Raise TypeError
  end.

Definition keys (d : record) : list string := map fst d.

(** [d[k] = v]: overwrite in place, or append a new key. *)
Fixpoint setitem (k : string) (v : value) (d : record) : record :=
  match d with
  | [] => [(k, v)]
  | (k', v') :: d' =>
      if String.eqb k k' then (k, v) :: d' else (k', v') :: setitem k v d'
  end.

Fixpoint chars (s : string) : list value :=
  match s with
  | EmptyString => []
  | String c s' => VStr (String c EmptyString) :: chars s'
  end.

(** [for d in x]: a list yields its items, a string its characters, a
    dictionary its keys; nothing else is iterable. *)
Definition iter (x : value) : result (list value) :=
  match x with
  | VList l => Ok l
  | VStr s => Ok (chars s)
  | VDict kv => Ok (map VStr (keys kv))
  | _ => Raise TypeError
  end.

(** Code points below 256 for which [str.isspace] holds. *)
Definition isspace (c : ascii) : bool :=
  let n := nat_of_ascii c in
  ((9 <=? n) && (n <=? 13)) || ((28 <=? n) && (n <=? 32))
  || (n =? 133) || (n =? 160).

Fixpoint lstrip (s : string) : string :=
  match s with
  | EmptyString => EmptyString
  | String c s' => if isspace c then lstrip s' else s
  end.

Fixpoint rstrip (s : string) : string :=
  match s with
  | EmptyString => EmptyString
  | String c s' =>
      match rstrip s' with
      | EmptyString => if isspace c then EmptyString else String c EmptyString
      | r => String c r
      end
  end.

(** [s.strip()]. *)
Definition strip (s : string) : string := rstrip (lstrip s).

(** [x.strip()] on any value: only [str] has the method. *)
Definition strip_method (x : value) : result value :=
  match x with
  | VStr s => Ok (VStr (strip s))
  | _ => Raise AttributeError
  end.

End Py.

Import Py.

Declare Scope result_scope.
Delimit Scope result_scope with result.
Notation "x <- m ;; k" := (bind m (fun x => k))
  (at level 61, m at next level, right associativity) : result_scope.
Local Open Scope result_scope.

(* ===================================================================== *)
(** * Decimal literals *)
(* ===================================================================== *)

Module Numeric.

Definition is_digit (c : ascii) : bool :=
  let n := nat_of_ascii c in (48 <=? n) && (n <=? 57).

Definition digit (c : ascii) : Z := Z.of_nat (nat_of_ascii c - 48).

Definition digits (l : list ascii) : Z :=
  fold_left (fun acc c => (10 * acc + digit c)%Z) l 0%Z.

Fixpoint span (p : ascii -> bool) (l : list ascii) : list ascii * list ascii :=
  match l with
  | [] => ([], [])
  | c :: l' =>
      if p c then let (a, b) := span p l' in (c :: a, b) else ([], l)
  end.

Fixpoint drop_while (p : ascii -> bool) (l : list ascii) : list ascii :=
  match l with
  | [] => []
  | c :: l' => if p c then drop_while p l' else l
  end.

Definition trim (sp : ascii -> bool) (l : list ascii) : list ascii :=
  rev (drop_while sp (rev (drop_while sp l))).

Definition is_nil (l : list ascii) : bool :=
  match l with [] => true | _ => false end.

Definition sign (l : list ascii) : bool * list ascii :=
  match l with
  | "-"%char :: l' => (true, l')
  | "+"%char :: l' => (false, l')
  | _ => (false, l)
  end.

(** Integer and fractional digits: the digits read as one integer, the
    number of fractional digits, and the rest.  At least one digit. *)
Definition mantissa (l : list ascii) : option (Z * nat * list ascii) :=
  let (ip, r1) := span is_digit l in
  match r1 with
  | "."%char :: r2 =>
      let (fp, r3) := span is_digit r2 in
      if is_nil ip && is_nil fp then None
      else Some (digits (ip ++ fp), List.length fp, r3)
  | _ => if is_nil ip then None else Some (digits ip, 0, r1)
  end.

(** The optional exponent, which must end the literal. *)
Definition exponent (l : list ascii) : option Z :=
  match l with
  | [] => Some 0%Z
  | c :: l' =>
      if Ascii.eqb c "e" || Ascii.eqb c "E" then
        let (neg, l1) := sign l' in
        match span is_digit l1 with
        | ((_ :: _) as ds, []) => Some (if neg then - digits ds else digits ds)%Z
        | _ => None
        end
      else None
  end.

(** [m * 10 ^ e], in lowest terms. *)
Definition scale (m e : Z) : Q :=
  if (0 <=? e)%Z then inject_Z (m * 10 ^ e)
  else Qred (Qmake m (Z.to_pos (10 ^ (- e)))).

(** [[sign] digits [. digits] [e [sign] digits]], nothing before or after. *)
Definition decimal (l : list ascii) : option Q :=
  let (neg, l1) := sign l in
  match mantissa l1 with
  | None => None
  | Some (m, frac, l2) =>
      match exponent l2 with
      | None => None
      | Some e => Some (scale (if neg then - m else m) (e - Z.of_nat frac))
      end
  end.

(** The blanks the C parser of [to_numeric] skips around a literal. *)
Definition c_isspace (c : ascii) : bool :=
  let n := nat_of_ascii c in ((9 <=? n) && (n <=? 13)) || (n =? 32).

Definition lower (c : ascii) : ascii :=
  let n := nat_of_ascii c in
  if (65 <=? n) && (n <=? 90) then ascii_of_nat (n + 32) else c.

Fixpoint lower_string (s : string) : string :=
  match s with
  | EmptyString => EmptyString
  | String c s' => String (lower c) (lower_string s')
  end.

Inductive parsed : Type :=
| Finite (q : Q)
| Infinite (negative : bool)
| NotANumber
| Unparsable.

(** What [pd.to_numeric] reads in a string: a decimal literal between
    blanks or, in any letter case, one of the names below. *)
Definition numeric_of_string (s : string) : parsed :=
  match decimal (trim c_isspace (list_ascii_of_string s)) with
  | Some q => Finite q
  | None =>
      let w := lower_string s in
      if String.eqb w "nan" || String.eqb w "+nan" || String.eqb w "-nan"
      then NotANumber
      else if String.eqb w "inf" || String.eqb w "+inf"
              || String.eqb w "infinity" || String.eqb w "+infinity"
      then Infinite false
      else if String.eqb w "-inf" || String.eqb w "-infinity"
      then Infinite true
      else Unparsable
  end.

(** Underscores may group digits: each one stands between two digits. *)
Fixpoint underscores_ok (after_digit : bool) (l : list ascii) : bool :=
  match l with
  | [] => true
  | c :: l' =>
      if Ascii.eqb c "_" then
        after_digit
        && match l' with d :: _ => is_digit d | [] => false end
        && underscores_ok false l'
      else underscores_ok (is_digit c) l'
  end.

(** [float(s)] when it is a finite number: [None] stands for [ValueError]
    and for the non-finite names, neither of which gives a date. *)
Definition python_float (s : string) : option Q :=
  let l := trim isspace (list_ascii_of_string s) in
  if underscores_ok false l
  then decimal (filter (fun c => negb (Ascii.eqb c "_")) l)
  else None.

End Numeric.

(* ===================================================================== *)
(** * Data frames, as far as both scripts use them *)
(* ===================================================================== *)

Module Frame.

(** A cell of a frame: a missing value, a Python object kept as it came,
    or the product of one of the two coercions. *)
Inductive cell : Type :=
| NaN
| Obj (v : value)
| Num (q : Q)
| Inf (negative : bool)
| Timestamp (ms : Q)
| NaT.

(** Row-major frame.  Every row carries its index label; column labels may
    repeat. *)
Record DataFrame : Type := mkFrame {
  columns : list string;
  rows : list (nat * list cell)
}.

(** [pd.DataFrame()]. *)
Definition empty_frame : DataFrame := mkFrame [] [].

Definition len (df : DataFrame) : nat := List.length (rows df).

Definition index (df : DataFrame) : list nat := map fst (rows df).

Definition body (df : DataFrame) : list (list cell) := map snd (rows df).

(** [df.empty]: no rows or no columns. *)
Definition empty (df : DataFrame) : bool :=
  match rows df, columns df with
  | [], _ => true
  | _, [] => true
  | _, _ => false
  end.

Definition mem (c : string) (cols : list string) : bool :=
  existsb (String.eqb c) cols.

(** Keep the first occurrence of every label. *)
Fixpoint unique (seen : list string) (l : list string) : list string :=
  match l with
  | [] => []
  | c :: l' => if mem c seen then unique seen l' else c :: unique (c :: seen) l'
  end.

Definition of_get (o : option value) : cell :=
  match o with
  | Some v => Obj v
  | None => NaN
  end.

(** The row of record [r] under the columns [cols]. *)
Definition row_of (cols : list string) (r : record) : list cell :=
  map (fun c => of_get (get c r)) cols.

Fixpoint number {A : Type} (from : nat) (l : list A) : list (nat * A) :=
  match l with
  | [] => []
  | x :: l' => (from, x) :: number (S from) l'
  end.

(** [pd.DataFrame(records)]: the columns are the keys in order of first
    appearance, a record lacking a key has [NaN] there, and the index is
    [0 .. n-1].  [pd.DataFrame([])] has no columns. *)
Definition of_records (records : list record) : DataFrame :=
  let cols := unique [] (flat_map keys records) in
  mkFrame cols (number 0 (map (row_of cols) records)).

(** [pd.DataFrame(records, index=labels)] with as many labels as records. *)
Definition of_records_indexed (labels : list nat) (records : list record)
  : DataFrame :=
  let cols := unique [] (flat_map keys records) in
  mkFrame cols (combine labels (map (row_of cols) records)).

(** [c in df.columns] is [mem c (columns df)]. *)

Fixpoint distinct (l : list string) : bool :=
  match l with
  | [] => true
  | c :: l' => negb (mem c l') && distinct l'
  end.

(** All positions of label [c], counted from [from]. *)
Fixpoint positions (from : nat) (c : string) (cols : list string) : list nat :=
  match cols with
  | [] => []
  | c' :: cols' =>
      if String.eqb c c' then from :: positions (S from) c cols'
      else positions (S from) c cols'
  end.

Definition at_pos (row : list cell) (i : nat) : cell := nth i row NaN.

Fixpoint set_nth (i : nat) (x : cell) (row : list cell) : list cell :=
  match row, i with
  | [], _ => []
  | _ :: row', 0 => x :: row'
  | y :: row', S i' => y :: set_nth i' x row'
  end.

(** [df[[c1; ...; cn]]]: every label must exist; a repeated label of [df]
    brings all its columns. *)
Fixpoint locate (cols : list string) (labels : list string)
  : result (list (string * nat)) :=
  match labels with
  | [] => Ok []
  | c :: labels' =>
      match positions 0 c cols with
      | [] => Raise (KeyError c)
      | ps => rest <- locate cols labels' ;; Ok (map (pair c) ps ++ rest)
      end
  end.

Definition select (df : DataFrame) (labels : list string) : result DataFrame :=
  found <- locate (columns df) labels ;;
  Ok (mkFrame (map fst found)
        (map (fun r => (fst r, map (at_pos (snd r)) (map snd found))) (rows df))).

(** What [df[c]] is: one column, or a frame when the label repeats. *)
Inductive selection : Type :=
| Series (s : list (nat * cell))
| SubFrame (df : DataFrame).

Definition column (df : DataFrame) (i : nat) : list (nat * cell) :=
  map (fun r => (fst r, at_pos (snd r) i)) (rows df).

Definition getcol (df : DataFrame) (c : string) : result selection :=
  match positions 0 c (columns df) with
  | [] => Raise (KeyError c)
  | [i] => Ok (Series (column df i))
  | _ => s <- select df [c] ;; Ok (SubFrame s)
  end.

Fixpoint nat_list_eqb (a b : list nat) : bool :=
  match a, b with
  | [], [] => true
  | x :: a', y :: b' => Nat.eqb x y && nat_list_eqb a' b'
  | _, _ => false
  end.

(** [df[c] = s] for a series [s] that has the index of [df] and a label
    [c] that [df] has once: the column is replaced. *)
Definition setcol (df : DataFrame) (c : string) (s : list (nat * cell))
  : result DataFrame :=
  match positions 0 c (columns df) with
  | [i] =>
      if nat_list_eqb (index df) (map fst s) then
        Ok (mkFrame (columns df)
              (map (fun rx => (fst (fst rx), set_nth i (snd (snd rx)) (snd (fst rx))))
                   (combine (rows df) s)))
      else Raise NotModelled
  | _ => Raise NotModelled
  end.

(** The entries one cell explodes to: the items of a non-empty list, one
    [NaN] for an empty list, the cell itself for a scalar.  A dictionary
    under the exploded label is outside the model. *)
Definition explode_cell (x : cell) : result (list cell) :=
  match x with
  | Obj (VList []) => Ok [NaN]
  | Obj (VList l) => Ok (map Obj l)
  | Obj (VDict _) => Raise NotModelled
  | _ => Ok [x]
  end.

Fixpoint explode_rows (i : nat) (rs : list (nat * list cell))
  : result (list (nat * list cell)) :=
  match rs with
  | [] => Ok []
  | r :: rs' =>
      xs <- explode_cell (at_pos (snd r) i) ;;
      rest <- explode_rows i rs' ;;
      Ok (map (fun x => (fst r, set_nth i x (snd r))) xs ++ rest)
  end.

(** [df.explode(col)]: every row is repeated once per entry of its cell
    under [col], keeping its index label. *)
Definition explode (df : DataFrame) (col : string) : result DataFrame :=
  if negb (distinct (columns df)) then Raise ValueError
  else
    match positions 0 col (columns df) with
    | i :: _ =>
        rs <- explode_rows i (rows df) ;;
        Ok (mkFrame (columns df) rs)
    | [] => Raise (KeyError col)
    end.

(** [df.reset_index(drop=True)]. *)
Definition reset_index (df : DataFrame) : DataFrame :=
  mkFrame (columns df) (number 0 (body df)).

(** [pd.concat([a, b], axis=1)] for two frames with the same index. *)
Definition concat_columns (a b : DataFrame) : result DataFrame :=
  if nat_list_eqb (index a) (index b) then
    Ok (mkFrame (columns a ++ columns b)
          (map (fun ab => (fst (fst ab), snd (fst ab) ++ snd (snd ab)))
               (combine (rows a) (rows b))))
  else Raise NotModelled.

(** [df.head()]: the first five rows. *)
Definition head (df : DataFrame) : DataFrame :=
  mkFrame (columns df) (firstn 5 (rows df)).

(** [df[mask]] for a boolean mask with one entry per row. *)
Definition where_mask (df : DataFrame) (mask : list bool) : DataFrame :=
  mkFrame (columns df)
    (map fst (filter snd (combine (rows df) mask))).

(** ** [pd.json_normalize] *)

Definition new_key (key_string key : string) : string :=
  if String.eqb key_string "" then key else key_string ++ "." ++ key.

(** [_normalise_json]: the leaves of nested dictionaries, under their
    dotted paths. *)
Fixpoint normalise_json (data : value) (key_string : string) (acc : record)
  : record :=
  match data with
  | VDict kv =>
      (fix items (kv : list (string * value)) (acc : record) : record :=
         match kv with
         | [] => acc
         | (k, v) :: kv' =>
             items kv' (normalise_json v (new_key key_string k) acc)
         end) kv acc
  | _ => setitem key_string data acc
  end.

Definition is_dict (v : value) : bool :=
  match v with VDict _ => true | _ => false end.

(** [_normalise_json_ordered]: top-level leaves first, then the nested. *)
Definition normalise_json_ordered (data : record) : record :=
  let top := filter (fun kv => negb (is_dict (snd kv))) data in
  let nested :=
    normalise_json (VDict (filter (fun kv => is_dict (snd kv)) data)) "" [] in
  fold_left (fun d kv => setitem (fst kv) (snd kv) d) nested top.

(** One entry of the normalised list: a dictionary is flattened, a scalar
    or a missing value gives the empty record.  A list nested in the list
    is outside the model. *)
Definition normalise_entry (x : cell) : result record :=
  match x with
  | Obj (VDict kv) => Ok (normalise_json_ordered kv)
  | Obj (VList _) => Raise NotModelled
  | _ => Ok []
  end.

Fixpoint normalise_entries (xs : list cell) : result (list record) :=
  match xs with
  | [] => Ok []
  | x :: xs' =>
      r <- normalise_entry x ;;
      rest <- normalise_entries xs' ;;
      Ok (r :: rest)
  end.

(** [pd.json_normalize(s)] for a series [s]. *)
Definition json_normalize (s : list (nat * cell)) : result DataFrame :=
  records <- normalise_entries (map snd s) ;;
  Ok (of_records_indexed (map fst s) records).

(** ** [pd.to_datetime(., unit="ms", errors="coerce")] *)

Definition ns_max : Z := 9223372036854775807.

Definition in_bounds (ms : Q) : bool :=
  Qle_bool (inject_Z (- ns_max)) (ms * inject_Z 1000000)
  && Qle_bool (ms * inject_Z 1000000) (inject_Z ns_max).

Definition stamp (ms : Q) : cell :=
  if in_bounds ms then Timestamp ms else NaT.

(** A number is read as milliseconds since the epoch, a string too when
    [float] accepts it, and everything else is [NaT]: under
    [errors="coerce"] no cell raises.  The date keeps the exact number of
    milliseconds; it is [NaT] beyond what 64 bits of nanoseconds hold. *)
Definition to_datetime_cell (x : cell) : cell :=
  match x with
  | Obj (VInt n) => stamp (inject_Z n)
  | Obj (VFloat q) => stamp q
  | Obj (VStr s) =>
      match Numeric.python_float s with
      | Some q => stamp q
      | None => NaT
      end
  | Num q => stamp q
  | Timestamp ms => Timestamp ms
  | _ => NaT
  end.

Definition to_datetime (x : selection) : result (list (nat * cell)) :=
  match x with
  | Series s => Ok (map (fun lc => (fst lc, to_datetime_cell (snd lc))) s)
  | SubFrame _ => Raise ValueError
  end.

(** ** [pd.to_numeric(., errors="coerce")] *)

(** A number stays, a boolean counts as 1 or 0, a string is parsed, and
    everything else is [NaN]: under [errors="coerce"] no cell raises. *)

Definition to_numeric_cell (x : cell) : cell :=
  match x with
  | Obj (VBool b) => Num (if b then 1 else 0)
  | Obj (VInt n) => Num (inject_Z n)
  | Obj (VFloat q) => Num q
  | Obj (VStr s) =>
      match Numeric.numeric_of_string s with
      | Numeric.Finite q => Num q
      | Numeric.Infinite b => Inf b
      | _ => NaN
      end
  | Num q => Num q
  | Inf b => Inf b
  | _ => NaN
  end.

Definition to_numeric (x : selection) : result (list (nat * cell)) :=
  match x with
  | Series s => Ok (map (fun lc => (fst lc, to_numeric_cell (snd lc))) s)
  | SubFrame _ => Raise TypeError
  end.


End Frame.

Import Frame.

(* ===================================================================== *)
(** * notebooks/ine_utils.py *)
(* ===================================================================== *)

Module IneUtils.

(** A [for] loop whose body updates the loop state or raises. *)
Fixpoint for_each {A S : Type} (body : S -> A -> result S) (l : list A) (st : S)
  : result S :=
  match l with
  | [] => Ok st
  | x :: l' => st' <- body st x ;; for_each body l' st'
  end.

(** The dictionary literal appended for observation [d] of [serie]; its
    five items are evaluated in the order they are written. *)
Definition fila (serie : record) (d : value) : result record :=
  nombre <- getitem "Nombre" serie ;;
  nombre <- strip_method nombre ;;
  codigo <- getitem "COD" serie ;;
  periodo <- subscript d "FK_Periodo" ;;
  anyo <- subscript d "Anyo" ;;
  valor <- subscript d "Valor" ;;
  Ok [("serie", nombre); ("codigo", codigo); ("periodo", periodo);
      ("anyo", anyo); ("valor", valor)].

(** The inner loop: [for d in serie.get('Data', []): filas.append(...)]. *)
Definition por_serie (filas : list record) (serie : record)
  : result (list record) :=
  data <- iter (get_default "Data" (VList []) serie) ;;
  for_each (fun filas d => f <- fila serie d ;; Ok (filas ++ [f])) data filas.

(** [descargar_tabla_ine_json], from [datos = r.json()] on; the arguments
    [nult], [tip] and [filtros] only shape the request. *)
Definition descargar_tabla_ine_json (datos : list record) : result DataFrame :=
  filas <- for_each por_serie datos [] ;;
  Ok (of_records filas).

End IneUtils.

(* ===================================================================== *)
(** * notebooks/ine_cli.py *)
(* ===================================================================== *)

Module IneCli.

(** ** Access to the API, from the parsed response on *)

(** [get_operaciones], from [data = fetch_json("OPERACIONES_DISPONIBLES")]. *)
Definition get_operaciones (data : list record) : result DataFrame :=
  select (of_records data) ["Id"; "Codigo"; "Nombre"].

(** [get_tablas], from [data = fetch_json("TABLAS_OPERACION/...")]. *)
Definition get_tablas (data : list record) : result DataFrame :=
  match data with
  | [] => Ok empty_frame
  | _ =>
      select (of_records data)
        ["Id"; "Nombre"; "Anyo_Periodo_Ini"; "Anyo_Periodo_Fin"]
  end.

(** [if c in df.columns: df[c] = conv(df[c], ...)]. *)
Definition coerce_column (c : string)
    (conv : selection -> result (list (nat * cell))) (df : DataFrame)
  : result DataFrame :=
  if mem c (columns df) then
    x <- getcol df c ;;
    s <- conv x ;;
    setcol df c s
  else Ok df.

(** The frame before the two coercions: [pd.concat([df_meta, df_values],
    axis=1)] for a non-empty response. *)
Definition aplanar (raw : list record) : result DataFrame :=
  let df_series := of_records raw in
  df_long <- explode df_series "Data" ;;
  let cols_meta :=
    filter (fun c => negb (String.eqb c "Data")) (columns df_series) in
  meta <- select df_long cols_meta ;;
  let df_meta := reset_index meta in
  data <- getcol df_long "Data" ;;
  values <- match data with
            | Series s => json_normalize s
            | SubFrame _ => Raise NotModelled
            end ;;
  let df_values := reset_index values in
  concat_columns df_meta df_values.

(** [get_datos_tabla], from [raw = fetch_json("DATOS_TABLA/...")], the
    array of series objects. *)
Definition get_datos_tabla (raw : list record) : result DataFrame :=
  match raw with
  | [] => Ok empty_frame
  | _ =>
      df <- aplanar raw ;;
      df <- coerce_column "Fecha" to_datetime df ;;
      coerce_column "Valor" to_numeric df
  end.

(** ** Console output *)

(** What a command writes, line by line.  Layout (padding, separators,
    blank lines) is not modelled: a formatted line keeps its fields, and
    the fixed texts are written without their accents and symbols. *)
Inductive line : Type :=
| Msg (text : string)
| MsgInt (before : string) (n : Z) (after : string)
| Rule (width : nat)
| Fields (cells : list cell)
| Labels (before : string) (labels : list string)
| Counts (before : string) (counts : list nat)
| Range (lo hi : cell)
| Table (df : DataFrame)
| CsvFile (path : string) (df : DataFrame).

(** A command: the lines printed so far, and how it ended. *)
Definition io (A : Type) : Type := list line * result A.

Definition io_ret {A : Type} (a : A) : io A := ([], Ok a).

Definition io_bind {A B : Type} (m : io A) (f : A -> io B) : io B :=
  match m with
  | (out, Ok a) => let (out', r) := f a in (out ++ out', r)
  | (out, Raise e) => (out, Raise e)
  end.

Definition print (l : line) : io unit := ([l], Ok tt).

Definition lift {A : Type} (r : result A) : io A := ([], r).

Fixpoint for_rows {A : Type} (body : A -> io unit) (l : list A) : io unit :=
  match l with
  | [] => io_ret tt
  | x :: l' => io_bind (body x) (fun _ => for_rows body l')
  end.

(** ** The commands *)

(** [v[:n] + "..." if len(v) > m else v] on the name of a row.  A name
    that is a list or a dictionary is outside the model; any other
    non-string has no [len]. *)
Definition abreviar (m n : nat) (x : cell) : result cell :=
  match x with
  | Obj (VStr s) =>
      Ok (Obj (VStr (if m <? String.length s
                     then substring 0 n s ++ "..." else s)))
  | Obj (VList _) | Obj (VDict _) => Raise NotModelled
  | _ => Raise TypeError
  end.

Definition field (df : DataFrame) (row : list cell) (c : string) : cell :=
  match positions 0 c (columns df) with
  | i :: _ => at_pos row i
  | [] => NaN
  end.

Section Operaciones.

(** [re.compile(pat, re.IGNORECASE).search], [None] when [pat] is not a
    regular expression. *)
Variable re_search : string -> option (string -> bool).

(** [s.str.contains(pat, case=False, na=False)] on a column of objects. *)
Definition str_contains (x : selection) (pat : string) : result (list bool) :=
  match x with
  | Series s =>
      match re_search pat with
      | None => Raise ReError
      | Some found =>
          Ok (map (fun lc => match snd lc with
                             | Obj (VStr name) => found name
                             | _ => false
                             end) s)
      end
  | SubFrame _ => Raise AttributeError
  end.

(** [if args.buscar:] holds for a non-empty text. *)
Definition buscar_dado (buscar : option string) : option string :=
  match buscar with
  | Some "" => None
  | b => b
  end.

Definition cmd_operaciones (buscar : option string) (data : list record)
  : io unit :=
  io_bind (lift (get_operaciones data)) (fun df =>
  io_bind (match buscar_dado buscar with
           | Some pat =>
               lift (x <- getcol df "Nombre" ;;
                     mask <- str_contains x pat ;;
                     Ok (where_mask df mask))
           | None => io_ret df
           end) (fun df =>
  if empty df then print (Msg "No se encontraron operaciones.")
  else
    io_bind (print (Msg "Id  Codigo  Nombre")) (fun _ =>
    io_bind (print (Rule 80)) (fun _ =>
    io_bind (for_rows (fun r =>
               io_bind (lift (abreviar 58 55 (field df (snd r) "Nombre")))
                 (fun nombre =>
               print (Fields [field df (snd r) "Id";
                              field df (snd r) "Codigo"; nombre])))
               (rows df)) (fun _ =>
    print (MsgInt "Total: " (Z.of_nat (len df)) " operaciones")))))).

End Operaciones.

Definition cmd_tablas (id_operacion : Z) (data : list record) : io unit :=
  io_bind (lift (get_tablas data)) (fun df =>
  if empty df then
    print (MsgInt "No se encontraron tablas para la operacion "
             id_operacion ".")
  else
    io_bind (print (Msg "Id  Periodo  Nombre")) (fun _ =>
    io_bind (print (Rule 90)) (fun _ =>
    io_bind (for_rows (fun r =>
               io_bind (lift (abreviar 63 60 (field df (snd r) "Nombre")))
                 (fun nombre =>
               print (Fields [field df (snd r) "Id";
                              field df (snd r) "Anyo_Periodo_Ini";
                              field df (snd r) "Anyo_Periodo_Fin"; nombre])))
               (rows df)) (fun _ =>
    print (MsgInt "Total: " (Z.of_nat (len df)) " tablas"))))).

(** What [nunique] tells values apart by; a null has no key and is not
    counted, a list or a dictionary cannot be hashed. *)
Inductive hkey : Type :=
| KNum (q : Q)
| KInf (negative : bool)
| KStr (s : string)
| KTime (ms : Q).

Definition hash_key (x : cell) : result (option hkey) :=
  match x with
  | NaN | NaT | Obj VNone => Ok None
  | Obj (VBool b) => Ok (Some (KNum (if b then 1 else 0)))
  | Obj (VInt n) => Ok (Some (KNum (inject_Z n)))
  | Obj (VFloat q) => Ok (Some (KNum q))
  | Obj (VStr s) => Ok (Some (KStr s))
  | Obj (VList _) | Obj (VDict _) => Raise TypeError
  | Num q => Ok (Some (KNum q))
  | Inf b => Ok (Some (KInf b))
  | Timestamp ms => Ok (Some (KTime ms))
  end.

Definition hkey_eqb (a b : hkey) : bool :=
  match a, b with
  | KNum p, KNum q => Qeq_bool p q
  | KInf x, KInf y => Bool.eqb x y
  | KStr s, KStr t => String.eqb s t
  | KTime p, KTime q => Qeq_bool p q
  | _, _ => false
  end.

Fixpoint distinct_keys (seen : list hkey) (xs : list cell) : result nat :=
  match xs with
  | [] => Ok (List.length seen)
  | x :: xs' =>
      k <- hash_key x ;;
      match k with
      | None => distinct_keys seen xs'
      | Some k =>
          if existsb (hkey_eqb k) seen then distinct_keys seen xs'
          else distinct_keys (k :: seen) xs'
      end
  end.

Fixpoint columnwise {A : Type} (f : list cell -> result A) (df : DataFrame)
    (n i : nat) : result (list A) :=
  match n with
  | 0 => Ok []
  | S n' =>
      a <- f (map snd (column df i)) ;;
      rest <- columnwise f df n' (S i) ;;
      Ok (a :: rest)
  end.

(** [df[c].nunique()]: one count for a column, one per column for a
    frame. *)
Definition nunique (x : selection) : result (list nat) :=
  match x with
  | Series s => n <- distinct_keys [] (map snd s) ;; Ok [n]
  | SubFrame df => columnwise (distinct_keys []) df (List.length (columns df)) 0
  end.

(** [s.min()] and [s.max()] on a column of dates: [NaT] is skipped, and
    is the answer when there is nothing else. *)
Definition extreme (pick : Q -> Q -> bool) (xs : list cell) : cell :=
  fold_left (fun acc x =>
               match x, acc with
               | Timestamp a, Timestamp b =>
                   if pick a b then Timestamp a else Timestamp b
               | Timestamp a, _ => Timestamp a
               | _, _ => acc
               end) xs NaT.

Definition date_range (x : selection) : result line :=
  match x with
  | Series s =>
      Ok (Range (extreme Qle_bool (map snd s))
                (extreme (fun a b => Qle_bool b a) (map snd s)))
  | SubFrame _ => Raise NotModelled
  end.

Definition cmd_datos (id_tabla : Z) (output : option string)
    (raw : list record) : io unit :=
  io_bind (print (MsgInt "Descargando tabla " id_tabla "...")) (fun _ =>
  io_bind (lift (get_datos_tabla raw)) (fun df =>
  if empty df then print (Msg "No se obtuvieron datos.")
  else
    io_bind (print (MsgInt "Registros: " (Z.of_nat (len df)) "")) (fun _ =>
    io_bind (print (Labels "Columnas: " (columns df))) (fun _ =>
    io_bind (if mem "Nombre" (columns df) then
               io_bind (lift (x <- getcol df "Nombre" ;; nunique x))
                 (fun counts => print (Counts "Series unicas: " counts))
             else io_ret tt) (fun _ =>
    io_bind (if mem "Fecha" (columns df) then
               io_bind (lift (x <- getcol df "Fecha" ;; date_range x)) print
             else io_ret tt) (fun _ =>
    io_bind (print (Msg "Vista previa (ultimos 5 registros):")) (fun _ =>
    let cols_vista :=
      filter (fun c => mem c (columns df)) ["Nombre"; "Fecha"; "Valor"] in
    io_bind (lift (select df cols_vista)) (fun vista =>
    io_bind (print (Table (head vista))) (fun _ =>
    match output with
    | Some path =>
        if String.eqb path "" then io_ret tt
        else
          io_bind (print (CsvFile path df)) (fun _ =>
          print (Msg ("Exportado a " ++ path)))
    | None => io_ret tt
    end))))))))).

(** ** [main], after the arguments are parsed *)

(** The standard output, the error the handlers report, the exit status. *)
Definition main (command : io unit) : list line * option exn * Z :=
  match command with
  | (out, Ok _) => (out, None, 0%Z)
  | (out, Raise e) => (out, Some e, 1%Z)
  end.

Definition stdout (run : list line * option exn * Z) : list line :=
  fst (fst run).

Definition exit_code (run : list line * option exn * Z) : Z := snd run.

End IneCli.

Import IneUtils IneCli.

(* ===================================================================== *)
(** * Vocabulary of the statements *)
(* ===================================================================== *)

Module Tabla.

(** The observations a series record holds under ["Data"], when that is a
    list; none otherwise. *)
Definition observaciones (serie : record) : list value :=
  match get "Data" serie with
  | Some (VList l) => l
  | _ => []
  end.

(** Every (series, observation) pair of a response, series by series and,
    within a series, in the order of its list. *)
Definition pares (datos : list record) : list (record * value) :=
  flat_map (fun serie => map (pair serie) (observaciones serie)) datos.

(** The sum of the lengths of the observation lists. *)
Definition total_observaciones (datos : list record) : nat :=
  list_sum (map (fun serie => List.length (observaciones serie)) datos).

(** The entries the ["Data"] cell of a series explodes to. *)
Definition entradas (serie : record) : list cell :=
  match explode_cell (of_get (get "Data" serie)) with
  | Ok xs => xs
  | Raise _ => []
  end.

(** The flattened record of one entry. *)
Definition aplanada (x : cell) : record :=
  match normalise_entry x with
  | Ok r => r
  | Raise _ => []
  end.

(** The metadata columns of a response: every key but ["Data"], in order
    of first appearance. *)
Definition cols_meta (raw : list record) : list string :=
  filter (fun c => negb (String.eqb c "Data")) (unique [] (flat_map keys raw)).

(** Every (series, entry) pair of a response, in order. *)
Definition entradas_de (raw : list record) : list (record * cell) :=
  flat_map (fun serie => map (pair serie) (entradas serie)) raw.

(** The observation columns of a response: the keys of the flattened
    entries, in order of first appearance. *)
Definition cols_values (raw : list record) : list string :=
  unique []
    (flat_map keys (map (fun p => aplanada (snd p)) (entradas_de raw))).

(** The row of a pair before the coercions. *)
Definition fila_cruda (raw : list record) (p : record * cell) : list cell :=
  row_of (cols_meta raw) (fst p) ++ row_of (cols_values raw) (aplanada (snd p)).

(** Apply [f] under label [c] when the label occurs once. *)
Definition coerce_at (cols : list string) (c : string) (f : cell -> cell)
    (row : list cell) : list cell :=
  match positions 0 c cols with
  | [i] => set_nth i (f (at_pos row i)) row
  | _ => row
  end.

(** The frame with [f] applied under label [c]. *)
Definition coerced (c : string) (f : cell -> cell) (df : DataFrame) : DataFrame :=
  mkFrame (columns df)
    (map (fun r => (fst r, coerce_at (columns df) c f (snd r))) (rows df)).

(** The row that entry [x] of series [serie] gives in the flattening of
    [raw]: the metadata of the series, then the fields of the entry, with
    the date and value columns coerced. *)
Definition fila_de (raw : list record) (serie : record) (x : cell) : list cell :=
  let cols := cols_meta raw ++ cols_values raw in
  coerce_at cols "Valor" to_numeric_cell
    (coerce_at cols "Fecha" to_datetime_cell (fila_cruda raw (serie, x))).





(** A response the helper script reads to the end: every series has a
    string for name, a code, and a list of objects that each have a
    period, a year and a value. *)
Definition completa (datos : list record) : Prop :=
  Forall (fun serie =>
            (exists nombre, get "Nombre" serie = Some (VStr nombre))
            /\ (exists codigo, get "COD" serie = Some codigo)
            /\ exists l, get "Data" serie = Some (VList l)
                 /\ Forall (fun o => exists d periodo anyo valor,
                               o = VDict d
                               /\ get "FK_Periodo" d = Some periodo
                               /\ get "Anyo" d = Some anyo
                               /\ get "Valor" d = Some valor) l) datos.




(** The dictionary appended for a pair, before it becomes a row. *)
Definition fila_dict (p : record * value) (r : record) : Prop :=
  exists nombre codigo d periodo anyo valor,
    get "Nombre" (fst p) = Some (VStr nombre) /\
    get "COD" (fst p) = Some codigo /\
    snd p = VDict d /\
    get "FK_Periodo" d = Some periodo /\
    get "Anyo" d = Some anyo /\
    get "Valor" d = Some valor /\
    r = [("serie", VStr (strip nombre)); ("codigo", codigo);
         ("periodo", periodo); ("anyo", anyo); ("valor", valor)].

Definition cinco : list string :=
  ["serie"; "codigo"; "periodo"; "anyo"; "valor"].

End Tabla.

Import Tabla.

(* ===================================================================== *)
(** * Sample responses *)
(* ===================================================================== *)

Module Ejemplos.

Definition obs (fecha : Z) (periodo anyo : Z) (valor : value) : value :=
  VDict [("Fecha", VInt fecha); ("FK_Periodo", VInt periodo);
         ("Anyo", VInt anyo); ("Valor", valor)].

(** Two series, with two observations and one. *)
Definition dos_series : list record :=
  [[("COD", VStr "IPC1"); ("Nombre", VStr " Indice general ");
    ("Data", VList [obs 1704067200000 1 2024 (VFloat (1135 # 10));
                    obs 1706745600000 2 2024 (VFloat (1142 # 10))])];
   [("COD", VStr "IPC2"); ("Nombre", VStr "Alimentos");
    ("Data", VList [obs 1704067200000 1 2024 (VFloat (1201 # 10))])]].

(** The same, the second series without its name. *)
Definition sin_nombre : list record :=
  [[("COD", VStr "IPC1"); ("Nombre", VStr " Indice general ");
    ("Data", VList [obs 1704067200000 1 2024 (VFloat (1135 # 10));
                    obs 1706745600000 2 2024 (VFloat (1142 # 10))])];
   [("COD", VStr "IPC2");
    ("Data", VList [obs 1704067200000 1 2024 (VFloat (1201 # 10))])]].

(** A series record that has no ["Data"] key. *)
Definition suelta : record := [("COD", VStr "IPC3"); ("Nombre", VStr "Vivienda")].

(** The scenario of the specification. *)
Definition escenario : list record :=
  [[("Nombre", VStr "S1"); ("COD", VStr "C1");
    ("Data", VList [VDict [("Fecha", VInt 0); ("Valor", VStr "10")];
                    VDict [("Fecha", VInt 86400000); ("Valor", VStr "bad")]])]].

(** One series whose list of observations is empty. *)
Definition serie_vacia : list record :=
  [[("Nombre", VStr "S1"); ("COD", VStr "C1"); ("Data", VList [])]].

(** A series without observations before a series with one. *)
Definition vacia_y_llena : list record :=
  [[("Nombre", VStr "S1"); ("COD", VStr "C1"); ("Data", VList [])];
   [("Nombre", VStr "S2"); ("COD", VStr "C2");
    ("Data", VList [VDict [("Fecha", VInt 0); ("Valor", VStr "12.5")]])]].

(** One series with six observations, valued 1 to 6. *)
Definition seis : list record :=
  [[("Nombre", VStr "S1");
    ("Data", VList (map (fun n => VDict [("Valor", VInt n)])
                        [1; 2; 3; 4; 5; 6]%Z))]].

End Ejemplos.

Import Ejemplos.

(* ===================================================================== *)
(** * The helper script run as a program, and the listings *)
(* ===================================================================== *)

Module Guion.

(** The [__main__] block of [ine_utils.py], from the parsed response on:
    it reports the number of rows, writes them all and reports again. *)
Definition principal (datos : list record) : io unit :=
  io_bind (lift (descargar_tabla_ine_json datos)) (fun df =>
  io_bind (print (MsgInt "" (Z.of_nat (len df)) " filas descargadas")) (fun _ =>
  io_bind (print (CsvFile "ipc_datos.csv" df)) (fun _ =>
  print (MsgInt "Guardado ipc_datos.csv con " (Z.of_nat (len df)) " filas")))).

End Guion.

Module Listado.

Definition tres : list string := ["Id"; "Codigo"; "Nombre"].


(** Some record of the response has key [c]. *)
Definition presente (data : list record) (c : string) : Prop :=
  exists r, In r data /\ In c (keys r).

(** The name of a record, when it is a string. *)
Definition nombre_de (r : record) : option string :=
  match get "Nombre" r with
  | Some (VStr s) => Some s
  | _ => None
  end.









(** Three operations, the second with a long name. *)
Definition operaciones : list record :=
  [[("Id", VInt 25); ("Codigo", VStr "IPC");
    ("Nombre", VStr "Indice de Precios de Consumo")];
   [("Id", VInt 30); ("Codigo", VStr "EPA");
    ("Nombre",
     VStr "Encuesta de Poblacion Activa con un nombre largo de mas de cincuenta y ocho caracteres")];
   [("Id", VInt 33); ("Codigo", VStr "IPI");
    ("Nombre", VStr "Indice de Produccion Industrial")]].

End Listado.

Import Guion Listado.

(* ===================================================================== *)
(** * Lists, labels and positions *)
(* ===================================================================== *)

Section Labels.

Lemma mem_In (c : string) (l : list string) : mem c l = true <-> In c l.
Proof.
  unfold mem. rewrite existsb_exists. split.
  - intros [x [Hx Heq]]. apply String.eqb_eq in Heq. now subst.
  - intros H. exists c. split; [assumption | apply String.eqb_refl].
Qed.

Lemma mem_false (c : string) (l : list string) : mem c l = false <-> ~ In c l.
Proof.
  rewrite <- mem_In. destruct (mem c l); split; congruence.
Qed.

Lemma unique_In (c : string) (l seen : list string) :
  In c (unique seen l) <-> In c l /\ ~ In c seen.
Proof.
  revert seen. induction l as [| a l IH]; intros seen; simpl.
  - tauto.
  - destruct (mem a seen) eqn:Ha.
    + apply mem_In in Ha. rewrite IH. split.
      * tauto.
      * intros [[-> | H] Hn]; tauto.
    + apply mem_false in Ha. simpl. rewrite IH. simpl. split.
      * intros [-> | [H Hn]]; tauto.
      * intros [[-> | H] Hn]; [tauto |].
        destruct (string_dec a c) as [-> | Hne]; [tauto |].
        right. split; [assumption |]. intros [? | ?]; tauto.
Qed.

Lemma unique_distinct (l seen : list string) : distinct (unique seen l) = true.
Proof.
  revert seen. induction l as [| a l IH]; intros seen; simpl.
  - reflexivity.
  - destruct (mem a seen) eqn:Ha; [apply IH |].
    simpl. rewrite IH, andb_true_r. apply negb_true_iff, mem_false.
    rewrite unique_In. simpl. tauto.
Qed.

Lemma unique_all_seen (l seen : list string) :
  (forall c, In c l -> In c seen) -> unique seen l = [].
Proof.
  revert seen. induction l as [| a l IH]; intros seen H; simpl.
  - reflexivity.
  - assert (Ha : mem a seen = true) by (apply mem_In, H; now left).
    rewrite Ha. apply IH. intros c Hc. apply H. now right.
Qed.

Lemma positions_shift (c : string) (cols : list string) (k : nat) :
  positions (S k) c cols = map S (positions k c cols).
Proof.
  revert k. induction cols as [| a cols IH]; intros k; simpl.
  - reflexivity.
  - destruct (String.eqb c a); simpl; now rewrite IH.
Qed.

Lemma positions_nil (c : string) (cols : list string) (k : nat) :
  positions k c cols = [] <-> ~ In c cols.
Proof.
  revert k. induction cols as [| a cols IH]; intros k; simpl.
  - tauto.
  - destruct (String.eqb_spec c a) as [-> | Hne].
    + split; [discriminate | tauto].
    + rewrite IH. split; [intros H [Heq | Hin]; congruence | tauto].
Qed.


(** A label of a duplicate-free header has one position. *)
Lemma positions_distinct (c : string) (cols : list string) :
  distinct cols = true -> In c cols ->
  exists i, positions 0 c cols = [i] /\ nth_error cols i = Some c.
Proof.
  induction cols as [| a cols IH]; simpl; intros Hd Hin.
  - contradiction.
  - apply andb_true_iff in Hd. destruct Hd as [Ha Hd].
    apply negb_true_iff, mem_false in Ha.
    rewrite positions_shift.
    destruct (String.eqb_spec c a) as [-> | Hne].
    + exists 0. split; [| reflexivity].
      assert (Hnil : positions 0 a cols = []) by now apply positions_nil.
      now rewrite Hnil.
    + destruct Hin as [Heq | Hin]; [congruence |].
      destruct (IH Hd Hin) as [i [Hp Hn]].
      exists (S i). rewrite Hp. split; reflexivity || assumption.
Qed.

(** In a duplicate-free header a label has one position or none. *)
Lemma positions_one_or_none (cols : list string) (c : string) :
  distinct cols = true ->
  (exists i, positions 0 c cols = [i]) \/ positions 0 c cols = [].
Proof.
  intros Hd. destruct (in_dec string_dec c cols) as [Hin | Hn].
  - left. destruct (positions_distinct c cols Hd Hin) as [i [Hp _]]. now exists i.
  - right. now apply positions_nil.
Qed.

End Labels.

Section Rows.

Lemma row_of_length (cols : list string) (r : record) :
  List.length (row_of cols r) = List.length cols.
Proof. unfold row_of. apply length_map. Qed.

Lemma at_pos_row_of (cols : list string) (r : record) (i : nat) (c : string) :
  nth_error cols i = Some c -> at_pos (row_of cols r) i = of_get (get c r).
Proof.
  unfold at_pos, row_of. revert i.
  induction cols as [| a cols IH]; intros [| i]; simpl; try discriminate.
  - now intros [= ->].
  - apply IH.
Qed.

Lemma at_pos_set_nth_same (row : list cell) (i : nat) (x : cell) :
  i < List.length row -> at_pos (set_nth i x row) i = x.
Proof.
  unfold at_pos. revert i.
  induction row as [| y row IH]; intros [| i]; simpl; try lia.
  - reflexivity.
  - intros H. apply IH. lia.
Qed.

Lemma at_pos_set_nth_other (row : list cell) (i j : nat) (x : cell) :
  i <> j -> at_pos (set_nth i x row) j = at_pos row j.
Proof.
  unfold at_pos. revert i j.
  induction row as [| y row IH]; intros [| i] [| j] H; simpl;
    try reflexivity; try congruence.
  apply IH. congruence.
Qed.



Lemma number_map_snd {A : Type} (l : list A) (k : nat) :
  map snd (number k l) = l.
Proof.
  revert k. induction l as [| x l IH]; intros k; simpl; [| rewrite IH]; reflexivity.
Qed.

Lemma number_map_fst {A : Type} (l : list A) (k : nat) :
  map fst (number k l) = seq k (List.length l).
Proof.
  revert k. induction l as [| x l IH]; intros k; simpl; [| rewrite IH]; reflexivity.
Qed.

Lemma number_length {A : Type} (l : list A) (k : nat) :
  List.length (number k l) = List.length l.
Proof.
  revert k. induction l as [| x l IH]; intros k; simpl; [| rewrite IH]; reflexivity.
Qed.

Lemma number_combine {A B : Type} (a : list A) (b : list B) (k : nat) :
  List.length a = List.length b ->
  combine (number k a) (number k b)
  = map (fun ab => ((k + fst ab, fst (snd ab)), (k + fst ab, snd (snd ab))))
        (number 0 (combine a b)).
Proof.
  revert b k. induction a as [| x a IH]; intros [| y b] k H; simpl in *;
    try discriminate; try reflexivity.
  rewrite Nat.add_0_r. f_equal.
  rewrite IH by lia.
  assert (Hs : forall (l : list (A * B)) (j : nat),
             number (S j) l = map (fun p => (S (fst p), snd p)) (number j l)).
  { induction l as [| z l IHl]; intros j; simpl; [| rewrite IHl]; reflexivity. }
  rewrite (Hs _ 0), !map_map. apply map_ext. intros [n [u v]]. simpl.
  now rewrite Nat.add_succ_r.
Qed.

Lemma nat_list_eqb_refl (l : list nat) : nat_list_eqb l l = true.
Proof.
  induction l as [| x l IH]; simpl; [| rewrite Nat.eqb_refl, IH]; reflexivity.
Qed.

Lemma nat_list_eqb_eq (a b : list nat) : nat_list_eqb a b = true -> a = b.
Proof.
  revert b. induction a as [| x a IH]; intros [| y b]; simpl; try discriminate.
  - reflexivity.
  - intros H. apply andb_true_iff in H. destruct H as [Hx Hab].
    apply Nat.eqb_eq in Hx. subst. f_equal. now apply IH.
Qed.

Lemma combine_map_snd {A B : Type} (a : list A) (b : list B) :
  List.length a = List.length b -> map snd (combine a b) = b.
Proof.
  revert b. induction a as [| x a IH]; intros [| y b] H; simpl in *;
    try discriminate; try reflexivity.
  f_equal. apply IH. lia.
Qed.

Lemma combine_map_fst {A B : Type} (a : list A) (b : list B) :
  List.length a = List.length b -> map fst (combine a b) = a.
Proof.
  revert b. induction a as [| x a IH]; intros [| y b] H; simpl in *;
    try discriminate; try reflexivity.
  f_equal. apply IH. lia.
Qed.

End Rows.

(* ===================================================================== *)
(** * The helper script: [descargar_tabla_ine_json] *)
(* ===================================================================== *)

Section Descarga.

Lemma for_each_app {A S : Type} (body : S -> A -> result S) (l1 l2 : list A)
    (st : S) :
  for_each body (l1 ++ l2) st
  = (st' <- for_each body l1 st ;; for_each body l2 st').
Proof.
  revert st. induction l1 as [| x l1 IH]; intros st; simpl.
  - reflexivity.
  - destruct (body st x) as [st' | e]; simpl; [apply IH | reflexivity].
Qed.

Lemma fila_ok (serie : record) (d : value) (r : record) :
  fila serie d = Ok r -> fila_dict (serie, d) r.
Proof.
  unfold fila, getitem, strip_method, subscript, getitem, fila_dict. simpl.
  destruct (get "Nombre" serie) as [[| | | | nombre | |] |] eqn:Hn;
    simpl; try discriminate.
  destruct (get "COD" serie) as [codigo |] eqn:Hc; simpl; try discriminate.
  destruct d as [| | | | | | kv]; simpl; try discriminate.
  destruct (get "FK_Periodo" kv) as [periodo |] eqn:Hp; simpl; try discriminate.
  destruct (get "Anyo" kv) as [anyo |] eqn:Ha; simpl; try discriminate.
  destruct (get "Valor" kv) as [valor |] eqn:Hv; simpl; try discriminate.
  intros [= <-]. exists nombre, codigo, kv, periodo, anyo, valor. tauto.
Qed.

Lemma observaciones_loop (serie : record) (ds : list value)
    (acc out : list record) :
  for_each (fun filas d => f <- fila serie d ;; Ok (filas ++ [f])) ds acc = Ok out ->
  exists rs, out = acc ++ rs /\ Forall2 fila_dict (map (pair serie) ds) rs.
Proof.
  revert acc. induction ds as [| d ds IH]; intros acc; simpl.
  - intros [= <-]. exists []. rewrite app_nil_r. split; constructor.
  - destruct (fila serie d) as [f |] eqn:Hf; simpl; try discriminate.
    intros H. destruct (IH _ H) as [rs [-> Hrs]].
    exists (f :: rs). rewrite <- app_assoc. split; [reflexivity |].
    constructor; [now apply fila_ok | assumption].
Qed.

(** When the inner loop ends well, what it went through is the list under
    ["Data"]: a non-empty string or dictionary there stops it. *)
Lemma por_serie_ok (serie : record) (acc out : list record) :
  por_serie acc serie = Ok out ->
  exists rs, out = acc ++ rs
             /\ Forall2 fila_dict (map (pair serie) (observaciones serie)) rs.
Proof.
  unfold por_serie, get_default, observaciones.
  destruct (get "Data" serie) as [[| | | | s | l | kv] |]; simpl;
    try discriminate; try apply observaciones_loop.
  - destruct s as [| c s]; simpl.
    + intros [= <-]. exists []. rewrite app_nil_r. split; constructor.
    + unfold fila, getitem, strip_method. simpl.
      destruct (get "Nombre" serie) as [[| | | | nombre | |] |];
        simpl; try discriminate.
      destruct (get "COD" serie); simpl; discriminate.
  - destruct kv as [| [k v] kv]; simpl.
    + intros [= <-]. exists []. rewrite app_nil_r. split; constructor.
    + unfold fila, getitem, strip_method. simpl.
      destruct (get "Nombre" serie) as [[| | | | nombre | |] |];
        simpl; try discriminate.
      destruct (get "COD" serie); simpl; discriminate.
  - intros [= <-]. exists []. rewrite app_nil_r. split; constructor.
Qed.

Lemma series_loop (datos : list record) (acc out : list record) :
  for_each por_serie datos acc = Ok out ->
  exists rs, out = acc ++ rs /\ Forall2 fila_dict (pares datos) rs.
Proof.
  revert acc. induction datos as [| serie datos IH]; intros acc; simpl.
  - intros [= <-]. exists []. rewrite app_nil_r. split; constructor.
  - destruct (por_serie acc serie) as [mid |] eqn:Hs; simpl; try discriminate.
    intros H. apply por_serie_ok in Hs. destruct Hs as [rs1 [-> H1]].
    destruct (IH _ H) as [rs2 [-> H2]].
    exists (rs1 ++ rs2). rewrite app_assoc. split; [reflexivity |].
    unfold pares. simpl. now apply Forall2_app.
Qed.

Lemma fila_dict_keys (p : record * value) (r : record) :
  fila_dict p r -> keys r = cinco.
Proof.
  intros (nombre & codigo & d & periodo & anyo & valor & _ & _ & _ & _ & _ & _ & ->).
  reflexivity.
Qed.


Lemma columns_cinco (rs : list record) :
  Forall (fun r => keys r = cinco) rs -> rs <> [] ->
  unique [] (flat_map keys rs) = cinco.
Proof.
  intros Hall Hne. destruct rs as [| r rs]; [congruence |].
  inversion Hall as [| ? ? Hr Hrs]; subst. simpl. rewrite Hr.
  unfold cinco. simpl. repeat f_equal.
  apply unique_all_seen. intros c Hc.
  apply in_flat_map in Hc. destruct Hc as [r' [Hin Hc]].
  rewrite Forall_forall in Hrs. rewrite (Hrs _ Hin) in Hc.
  unfold cinco in Hc. simpl in *. intuition.
Qed.

End Descarga.

Section DescargaTotal.

Lemma observaciones_loop_total (serie : record) (ds : list value)
    (acc : list record) :
  (exists nombre, get "Nombre" serie = Some (VStr nombre)) ->
  (exists codigo, get "COD" serie = Some codigo) ->
  Forall (fun o => exists d periodo anyo valor,
            o = VDict d
            /\ get "FK_Periodo" d = Some periodo
            /\ get "Anyo" d = Some anyo
            /\ get "Valor" d = Some valor) ds ->
  exists out,
    for_each (fun filas d => f <- fila serie d ;; Ok (filas ++ [f])) ds acc
    = Ok out.
Proof.
  intros [nombre Hn] [codigo Hc] Hall. revert acc.
  induction Hall as [| o ds' (d & periodo & anyo & valor & -> & Hp & Ha & Hv) _ IH];
    intros acc; simpl.
  - eauto.
  - assert (Hf : exists f, fila serie (VDict d) = Ok f).
    { unfold fila, getitem, strip_method, subscript, getitem.
      rewrite Hn, Hc, Hp, Ha, Hv. cbn [bind]. eauto. }
    destruct Hf as [f ->]. cbn [bind]. apply IH.
Qed.

(** The helper script returns a frame on every complete response. *)
Lemma descargar_total (datos : list record) :
  completa datos -> exists df, descargar_tabla_ine_json datos = Ok df.
Proof.
  intros Hall. unfold descargar_tabla_ine_json.
  assert (Hloop : forall acc, exists filas, for_each por_serie datos acc = Ok filas).
  { induction Hall as [| serie datos' (Hn & Hc & l & Hl & Hobs) _ IH];
      intros acc; simpl.
    - eauto.
    - unfold por_serie, get_default. rewrite Hl. cbn [iter bind].
      destruct (@observaciones_loop_total serie l acc Hn Hc Hobs) as [mid ->].
      cbn [bind]. apply IH. }
  destruct (Hloop []) as [filas ->]. cbn [bind]. eauto.
Qed.

End DescargaTotal.


(** C10. A series record without a ["Data"] key changes nothing: the call
    ends as it would without that record, with the same rows or the same
    exception. *)
Theorem serie_sin_data (antes despues : list record) (serie : record) :
  get "Data" serie = None ->
  descargar_tabla_ine_json (antes ++ serie :: despues)
  = descargar_tabla_ine_json (antes ++ despues).
Proof.
  intros H. unfold descargar_tabla_ine_json.
  rewrite !for_each_app.
  destruct (for_each por_serie antes []) as [filas |]; simpl; [| reflexivity].
  unfold por_serie at 1, get_default. rewrite H. reflexivity.
Qed.


Lemma serie_sin_data_witness :
  descargar_tabla_ine_json ([hd [] dos_series] ++ suelta :: tl dos_series)
  = descargar_tabla_ine_json dos_series.
Proof.
  apply (@serie_sin_data [hd [] dos_series] (tl dos_series) suelta). reflexivity.
Defined.

(** C6, as the code has it.  On a response whose second series lacks its
    name, [descargar_tabla_ine_json] raises [KeyError] and returns no row
    at all, where [get_datos_tabla] returns the three rows and leaves the
    name of the last one missing. *)
Theorem campo_ausente_aborta :
  descargar_tabla_ine_json sin_nombre = Raise (KeyError "Nombre")
  /\ exists df,
       get_datos_tabla sin_nombre = Ok df
       /\ len df = 3
       /\ map (fun row => field df row "Nombre") (body df)
          = [Obj (VStr " Indice general "); Obj (VStr " Indice general "); NaN].
Proof.
  split; [reflexivity |].
  eexists. split; [reflexivity |]. split; reflexivity.
Qed.

(* ===================================================================== *)
(** * The command-line client: [get_datos_tabla] *)
(* ===================================================================== *)

Section Aplanar.


Lemma number_map {A B : Type} (f : A -> B) (l : list A) (k : nat) :
  map (fun p => (fst p, f (snd p))) (number k l) = number k (map f l).
Proof.
  revert k. induction l as [| x l IH]; intros k; simpl; [| rewrite IH]; reflexivity.
Qed.

Lemma combine_map_same {A B C : Type} (f : A -> B) (g : A -> C) (l : list A) :
  combine (map f l) (map g l) = map (fun a => (f a, g a)) l.
Proof.
  induction l as [| a l IH]; simpl; [| rewrite IH]; reflexivity.
Qed.

(** Exploding the frame of a response under the position of ["Data"]. *)
Lemma explode_rows_ok (cols : list string) (i : nat) (raw : list record)
    (k : nat) (out : list (nat * list cell)) :
  nth_error cols i = Some "Data" ->
  explode_rows i (number k (map (row_of cols) raw)) = Ok out ->
  map snd out
  = map (fun p => set_nth i (snd p) (row_of cols (fst p))) (entradas_de raw).
Proof.
  intros Hi. revert k out.
  induction raw as [| serie raw IH]; intros k out; simpl.
  - now intros [= <-].
  - rewrite (@at_pos_row_of cols serie i _ Hi).
    unfold entradas_de. simpl. unfold entradas at 1.
    destruct (explode_cell (of_get (get "Data" serie))) as [xs |]; simpl;
      try discriminate.
    destruct (explode_rows i (number (S k) (map (row_of cols) raw)))
      as [rest |] eqn:Hrest; simpl; try discriminate.
    intros [= <-]. rewrite !map_app, !map_map. simpl.
    f_equal. now apply (IH (S k)).
Qed.

Lemma locate_ok (cols labels : list string) :
  distinct cols = true -> (forall c, In c labels -> In c cols) ->
  exists found,
    locate cols labels = Ok found
    /\ map fst found = labels
    /\ Forall (fun ci => nth_error cols (snd ci) = Some (fst ci)) found.
Proof.
  intros Hd. induction labels as [| c labels IH]; intros Hin; simpl.
  - exists []. repeat split; constructor.
  - destruct (@positions_distinct c cols Hd (Hin c (or_introl eq_refl)))
      as [i [Hp Hn]].
    rewrite Hp.
    destruct IH as [found [Hl [Hf Hall]]]; [intros; apply Hin; now right |].
    rewrite Hl. simpl. exists ((c, i) :: found). simpl.
    rewrite Hf. repeat split. now constructor.
Qed.

(** Reading the metadata labels in an exploded row gives back the
    metadata of the series. *)
Lemma select_row (cols : list string) (i : nat) (x : cell) (serie : record)
    (found : list (string * nat)) :
  nth_error cols i = Some "Data" ->
  Forall (fun ci => nth_error cols (snd ci) = Some (fst ci)) found ->
  Forall (fun c => c <> "Data") (map fst found) ->
  map (at_pos (set_nth i x (row_of cols serie))) (map snd found)
  = row_of (map fst found) serie.
Proof.
  intros Hi Hall Hne.
  induction found as [| [c j] found IH]; simpl; [reflexivity |].
  inversion Hall as [| ? ? Hc Hrest]; subst.
  inversion Hne as [| ? ? Hd Hnrest]; subst. simpl in *.
  rewrite at_pos_set_nth_other by congruence.
  rewrite (@at_pos_row_of cols serie j _ Hc). f_equal. now apply IH.
Qed.

Lemma normalise_entries_ok (xs : list cell) (rs : list record) :
  normalise_entries xs = Ok rs -> rs = map aplanada xs.
Proof.
  revert rs. induction xs as [| x xs IH]; intros rs; simpl.
  - now intros [= <-].
  - unfold aplanada at 1.
    destruct (normalise_entry x) as [r |]; simpl; try discriminate.
    destruct (normalise_entries xs) as [rest |]; simpl; try discriminate.
    intros [= <-]. f_equal. now apply IH.
Qed.

End Aplanar.

(** The frame [get_datos_tabla] builds before it coerces anything: the
    metadata columns then the observation columns, and one row per
    (series, entry) pair, in order, numbered from 0. *)
Lemma aplanar_ok (raw : list record) (df : DataFrame) :
  aplanar raw = Ok df ->
  columns df = cols_meta raw ++ cols_values raw
  /\ rows df = number 0 (map (fila_cruda raw) (entradas_de raw)).
Proof.
  unfold aplanar, explode, of_records. cbn [columns rows].
  set (cols := unique [] (flat_map keys raw)).
  assert (Hd : distinct cols = true) by apply unique_distinct.
  rewrite Hd. cbn [negb].
  destruct (positions 0 "Data" cols) as [| i rest] eqn:Hpos; [discriminate |].
  assert (Hin : In "Data" cols).
  { destruct (in_dec string_dec "Data" cols) as [H | H]; [assumption |].
    apply (positions_nil "Data" cols 0) in H. congruence. }
  destruct (positions_distinct "Data" cols Hd Hin) as [i' [Hp Hi]].
  rewrite Hpos in Hp. injection Hp as <- ->.
  destruct (explode_rows i (number 0 (map (row_of cols) raw))) as [rs |] eqn:Hex;
    cbn [bind]; [| discriminate].
  apply (explode_rows_ok cols i raw 0 Hi) in Hex.
  unfold select. cbn [columns rows].
  change (filter (fun c : string => negb (c =? "Data")%string) cols)
    with (cols_meta raw).
  assert (Hsub : forall c, In c (cols_meta raw) -> In c cols).
  { intros c Hc. unfold cols_meta in Hc. apply filter_In in Hc. tauto. }
  destruct (locate_ok cols (cols_meta raw) Hd Hsub) as [found [Hl [Hf Hall]]].
  rewrite Hl. cbn [bind].
  unfold getcol. cbn [columns]. rewrite Hpos. cbn [bind].
  unfold json_normalize, column. cbn [rows]. rewrite !map_map. cbn [fst snd].
  assert (Hlt : i < List.length cols).
  { apply nth_error_Some. congruence. }
  assert (Hcells : map (fun r : nat * list cell => at_pos (snd r) i) rs
                   = map snd (entradas_de raw)).
  { rewrite <- (map_map snd (fun row => at_pos row i)), Hex, map_map.
    apply map_ext. intros p. apply at_pos_set_nth_same.
    now rewrite row_of_length. }
  rewrite Hcells.
  destruct (normalise_entries (map snd (entradas_de raw))) as [records |] eqn:Hn;
    cbn [bind]; [| discriminate].
  apply normalise_entries_ok in Hn. rewrite map_map in Hn.
  assert (Hne : Forall (fun c => c <> "Data") (map fst found)).
  { rewrite Hf. apply Forall_forall. intros c Hc.
    unfold cols_meta in Hc. apply filter_In in Hc. destruct Hc as [_ Hc].
    apply negb_true_iff, String.eqb_neq in Hc. exact Hc. }
  assert (HA : body (mkFrame (map fst found)
                       (map (fun r : nat * list cell =>
                               (fst r, map (at_pos (snd r)) (map snd found))) rs))
               = map (fun p => row_of (cols_meta raw) (fst p)) (entradas_de raw)).
  { unfold body. cbn [rows]. rewrite map_map. cbn [snd].
    rewrite <- (map_map snd (fun row => map (at_pos row) (map snd found))).
    rewrite Hex, map_map. apply map_ext. intros p.
    rewrite (@select_row cols i (snd p) (fst p) found Hi Hall Hne).
    now rewrite Hf. }
  assert (Hlen : List.length rs = List.length (entradas_de raw)).
  { rewrite <- (length_map snd rs), Hex. apply length_map. }
  assert (HB : body (of_records_indexed
                       (map (fun x : nat * list cell => fst x) rs) records)
               = map (fun p => row_of (cols_values raw) (aplanada (snd p)))
                     (entradas_de raw)).
  { unfold body, of_records_indexed. cbn [rows].
    rewrite combine_map_snd by (rewrite !length_map, Hn, length_map; exact Hlen).
    rewrite Hn at 2. rewrite map_map. unfold cols_values. now rewrite <- Hn. }
  unfold concat_columns, reset_index, index. cbn [rows columns].
  rewrite HA, HB. rewrite !number_map_fst, !length_map, nat_list_eqb_refl.
  intros [= <-]. cbn [columns rows]. split.
  - rewrite Hf. unfold of_records_indexed. cbn [columns].
    unfold cols_values. now rewrite <- Hn.
  - rewrite number_combine by (now rewrite !length_map).
    rewrite map_map. cbn [fst snd]. rewrite combine_map_same.
    rewrite <- number_map. rewrite map_map.
    rewrite <- (number_map (fila_cruda raw)).
    apply map_ext. intros [n p]. reflexivity.
Qed.

Section Coerce.

Variable c : string.
Variable f : cell -> cell.
Variable conv : selection -> result (list (nat * cell)).

Hypothesis conv_series :
  forall s, conv (Series s) = Ok (map (fun lc => (fst lc, f (snd lc))) s).
Hypothesis conv_frame : forall d, exists e, conv (SubFrame d) = Raise e.

Lemma combine_map_r {A B : Type} (g : A -> B) (l : list A) :
  combine l (map g l) = map (fun a => (a, g a)) l.
Proof.
  induction l as [| a l IH]; simpl; [| rewrite IH]; reflexivity.
Qed.

Lemma coerce_column_unique (df : DataFrame) :
  List.length (positions 0 c (columns df)) <= 1 ->
  coerce_column c conv df = Ok (coerced c f df).
Proof.
  intros Hle. unfold coerce_column, coerced, coerce_at.
  destruct (positions 0 c (columns df)) as [| i [| j rest]] eqn:Hpos.
  - apply positions_nil, mem_false in Hpos. rewrite Hpos.
    destruct df as [cols rs]. cbn [columns rows]. f_equal. f_equal.
    rewrite <- (map_id rs) at 1. apply map_ext. now intros [n row].
  - assert (Hmem : mem c (columns df) = true).
    { apply mem_In. destruct (in_dec string_dec c (columns df)) as [H | H];
        [assumption |].
      apply (positions_nil c (columns df) 0) in H. congruence. }
    rewrite Hmem. unfold getcol. rewrite Hpos. cbn [bind].
    rewrite conv_series. cbn [bind]. unfold setcol. rewrite Hpos.
    unfold column, index. rewrite !map_map. cbn [fst].
    rewrite nat_list_eqb_refl. f_equal. f_equal.
    rewrite combine_map_r, map_map. reflexivity.
  - simpl in Hle. lia.
Qed.

Lemma coerce_column_repeated (df : DataFrame) :
  2 <= List.length (positions 0 c (columns df)) ->
  exists e, coerce_column c conv df = Raise e.
Proof.
  intros Hle. unfold coerce_column.
  destruct (positions 0 c (columns df)) as [| i [| j rest]] eqn:Hpos;
    simpl in Hle; try lia.
  assert (Hmem : mem c (columns df) = true).
  { apply mem_In. destruct (in_dec string_dec c (columns df)) as [H | H];
      [assumption |].
    apply (positions_nil c (columns df) 0) in H. congruence. }
  rewrite Hmem. unfold getcol, select. rewrite Hpos. simpl locate.
  rewrite Hpos. cbn [bind].
  match goal with |- context [conv (SubFrame ?d)] =>
    destruct (conv_frame d) as [e He]; rewrite He end.
  now exists e.
Qed.

Lemma coerce_column_ok (df df' : DataFrame) :
  coerce_column c conv df = Ok df' ->
  List.length (positions 0 c (columns df)) <= 1 /\ df' = coerced c f df.
Proof.
  intros H.
  destruct (le_lt_dec (List.length (positions 0 c (columns df))) 1) as [Hle | Hgt].
  - split; [assumption |]. rewrite (coerce_column_unique df Hle) in H. congruence.
  - destruct (coerce_column_repeated df Hgt) as [e He]. congruence.
Qed.

End Coerce.

Section Flattened.

Lemma to_datetime_series (s : list (nat * cell)) :
  to_datetime (Series s) = Ok (map (fun lc => (fst lc, to_datetime_cell (snd lc))) s).
Proof. reflexivity. Qed.

Lemma to_datetime_frame (d : DataFrame) : exists e, to_datetime (SubFrame d) = Raise e.
Proof. now exists ValueError. Qed.

Lemma to_numeric_series (s : list (nat * cell)) :
  to_numeric (Series s) = Ok (map (fun lc => (fst lc, to_numeric_cell (snd lc))) s).
Proof. reflexivity. Qed.

Lemma to_numeric_frame (d : DataFrame) : exists e, to_numeric (SubFrame d) = Raise e.
Proof. now exists TypeError. Qed.


(** [get_datos_tabla] after a successful flattening: it succeeds exactly
    when neither coerced label repeats. *)
Lemma get_datos_tabla_coerced (raw : list record) (df0 df : DataFrame) :
  aplanar raw = Ok df0 ->
  get_datos_tabla raw = Ok df ->
  List.length (positions 0 "Fecha" (columns df0)) <= 1
  /\ List.length (positions 0 "Valor" (columns df0)) <= 1
  /\ df = coerced "Valor" to_numeric_cell (coerced "Fecha" to_datetime_cell df0).
Proof.
  intros H0. unfold get_datos_tabla.
  destruct raw as [| serie raw']; [discriminate |].
  rewrite H0. cbn [bind].
  destruct (coerce_column "Fecha" to_datetime df0) as [df1 |] eqn:H1;
    cbn [bind]; [| discriminate].
  intros H2.
  apply (@coerce_column_ok "Fecha" to_datetime_cell to_datetime
           to_datetime_series to_datetime_frame) in H1.
  apply (@coerce_column_ok "Valor" to_numeric_cell to_numeric
           to_numeric_series to_numeric_frame) in H2.
  destruct H1 as [Hf ->]. destruct H2 as [Hv ->]. auto.
Qed.

(** The flattened frame, whenever [get_datos_tabla] returns one. *)
Lemma get_datos_tabla_ok (raw : list record) (df : DataFrame) :
  get_datos_tabla raw = Ok df ->
  columns df = cols_meta raw ++ cols_values raw
  /\ rows df
     = number 0 (map (fun p => fila_de raw (fst p) (snd p)) (entradas_de raw))
  /\ List.length (positions 0 "Fecha" (columns df)) <= 1
  /\ List.length (positions 0 "Valor" (columns df)) <= 1.
Proof.
  destruct raw as [| serie raw'].
  - intros [= <-]. repeat split; simpl; lia.
  - remember (serie :: raw') as raw eqn:Hraw. intros H.
    destruct (aplanar raw) as [df0 |] eqn:H0.
    + destruct (@get_datos_tabla_coerced raw df0 _ H0 H) as [Hf [Hv ->]].
      apply aplanar_ok in H0. destruct H0 as [Hc Hr].
      unfold coerced. cbn [columns rows]. rewrite Hc in *.
      repeat split; try assumption.
      rewrite map_map. cbn [fst snd]. rewrite Hr.
      rewrite <- (number_map (fun p => fila_de raw (fst p) (snd p))).
      rewrite <- (number_map (fila_cruda raw)), map_map.
      apply map_ext. intros [n [s x]]. reflexivity.
    + unfold get_datos_tabla in H. rewrite Hraw in H. rewrite <- Hraw in H.
      rewrite H0 in H. discriminate.
Qed.

End Flattened.

(** What the entries of a series are, by what it has under ["Data"]: the
    items of a non-empty list, in the order of the list. *)
Lemma entradas_lista (serie : record) (o : value) (l : list value) :
  get "Data" serie = Some (VList (o :: l)) -> entradas serie = map Obj (o :: l).
Proof. unfold entradas. now intros ->. Qed.



(** The example of the specification: [S1(o1, o2), S2(o3)] gives the rows
    of o1, o2 and o3 in that order, the first two under the metadata of
    S1 and the third under that of S2. *)
Example orden_dos_series :
  exists df,
    get_datos_tabla dos_series = Ok df
    /\ columns df = ["COD"; "Nombre"; "Fecha"; "FK_Periodo"; "Anyo"; "Valor"]
    /\ body df
       = [[Obj (VStr "IPC1"); Obj (VStr " Indice general ");
           Timestamp (inject_Z 1704067200000); Obj (VInt 1); Obj (VInt 2024);
           Num (1135 # 10)];
          [Obj (VStr "IPC1"); Obj (VStr " Indice general ");
           Timestamp (inject_Z 1706745600000); Obj (VInt 2); Obj (VInt 2024);
           Num (1142 # 10)];
          [Obj (VStr "IPC2"); Obj (VStr "Alimentos");
           Timestamp (inject_Z 1704067200000); Obj (VInt 1); Obj (VInt 2024);
           Num (1201 # 10)]].
Proof.
  eexists. split; [reflexivity |]. split; reflexivity.
Qed.

Section Broadcast.

Lemma positions_app (c : string) (a b : list string) (k : nat) :
  positions k c (a ++ b)
  = positions k c a ++ positions (k + List.length a) c b.
Proof.
  revert k. induction a as [| x a IH]; intros k; simpl.
  - now rewrite Nat.add_0_r.
  - rewrite IH, Nat.add_succ_r. simpl. now destruct (String.eqb c x).
Qed.




Lemma get_None_keys (k : string) (d : record) :
  get k d = None <-> ~ In k (keys d).
Proof.
  induction d as [| [k' v'] d IH]; simpl; [tauto |].
  destruct (String.eqb_spec k k') as [-> | Hne].
  - split; [discriminate | tauto].
  - rewrite IH. split; [intros H [Heq | Hin]; congruence | tauto].
Qed.

Lemma cols_meta_In (raw : list record) (k : string) :
  In k (cols_meta raw)
  <-> k <> "Data" /\ exists serie, In serie raw /\ In k (keys serie).
Proof.
  unfold cols_meta. rewrite filter_In, unique_In, in_flat_map.
  rewrite negb_true_iff, String.eqb_neq. simpl. tauto.
Qed.


End Broadcast.



Section Coercions.




End Coercions.



(** The scenario of the specification, row by row. *)
Example escenario_especificacion :
  get_datos_tabla escenario
  = Ok (mkFrame ["Nombre"; "COD"; "Fecha"; "Valor"]
          [(0, [Obj (VStr "S1"); Obj (VStr "C1"); Timestamp 0; Num 10]);
           (1, [Obj (VStr "S1"); Obj (VStr "C1");
                Timestamp (inject_Z 86400000); NaN])]).
Proof. reflexivity. Qed.

Section Recuento.

Lemma length_flat_map_sum {A B : Type} (f : A -> list B) (l : list A) :
  List.length (flat_map f l) = list_sum (map (fun a => List.length (f a)) l).
Proof.
  induction l as [| a l IH]; simpl; [| rewrite length_app, IH]; reflexivity.
Qed.

(** The number of rows: one per entry, series by series. *)
Lemma get_datos_tabla_len (raw : list record) (df : DataFrame) :
  get_datos_tabla raw = Ok df ->
  len df = list_sum (map (fun serie => List.length (entradas serie)) raw).
Proof.
  intros H. apply get_datos_tabla_ok in H. destruct H as [_ [Hr _]].
  unfold len. rewrite Hr, number_length, length_map.
  unfold entradas_de. rewrite length_flat_map_sum.
  f_equal. apply map_ext. intros serie. apply length_map.
Qed.

(** A list of observations that is not empty has one entry per item. *)
Lemma entradas_llenas (serie : record) (o : value) (l : list value) :
  get "Data" serie = Some (VList (o :: l)) ->
  List.length (entradas serie) = List.length (observaciones serie).
Proof.
  intros H. unfold entradas, observaciones. rewrite H. simpl.
  now rewrite length_map.
Qed.

(** An empty list of observations has one entry all the same. *)
Lemma entradas_vacias (serie : record) :
  get "Data" serie = Some (VList []) ->
  entradas serie = [NaN] /\ observaciones serie = [].
Proof.
  intros H. unfold entradas, observaciones. now rewrite H.
Qed.

(** When every series has observations, there is a row for each of them
    and no other. *)
Lemma get_datos_tabla_len_llenas (raw : list record) (df : DataFrame) :
  Forall (fun serie => exists o l, get "Data" serie = Some (VList (o :: l))) raw ->
  get_datos_tabla raw = Ok df ->
  len df = total_observaciones raw.
Proof.
  intros Hall H. rewrite (@get_datos_tabla_len raw df H).
  unfold total_observaciones. f_equal.
  clear H.
  induction Hall as [| serie raw' [o [l Hs]] _ IH]; cbn [map]; [reflexivity |].
  now rewrite (@entradas_llenas serie o l Hs), IH.
Qed.

End Recuento.

(** C1, as the code has it.  The empty response gives the empty frame; a
    response of one series whose list of observations is empty gives a
    frame of one row, where the lengths of the lists add up to zero. *)
Theorem recuento_serie_vacia :
  get_datos_tabla [] = Ok empty_frame
  /\ total_observaciones serie_vacia = 0
  /\ exists df, get_datos_tabla serie_vacia = Ok df /\ len df = 1.
Proof.
  split; [reflexivity |]. split; [reflexivity |].
  eexists. split; reflexivity.
Qed.

(** C2, as the code has it.  A series whose list of observations is empty
    has a row of its own in the frame: its metadata, and nulls under the
    observation columns. *)
Theorem serie_vacia_deja_fila :
  observaciones (hd [] vacia_y_llena) = []
  /\ get_datos_tabla vacia_y_llena
     = Ok (mkFrame ["Nombre"; "COD"; "Fecha"; "Valor"]
             [(0, [Obj (VStr "S1"); Obj (VStr "C1"); NaT; NaN]);
              (1, [Obj (VStr "S2"); Obj (VStr "C2"); Timestamp 0;
                   Num (25 # 2)])]).
Proof. split; reflexivity. Qed.

Section Comandos.

Variable re_search : string -> option (string -> bool).

Lemma filter_all_false {A : Type} (l : list A) (mask : list bool) :
  Forall (fun b => b = false) mask -> filter snd (combine l mask) = [].
Proof.
  intros H. revert l. induction H as [| b mask Hb _ IH]; intros [| a l]; simpl;
    try reflexivity.
  rewrite Hb. apply IH.
Qed.

(** The frame of the operations has the three columns asked for. *)
Lemma get_operaciones_columns (data : list record) (df : DataFrame) :
  get_operaciones data = Ok df -> columns df = ["Id"; "Codigo"; "Nombre"].
Proof.
  unfold get_operaciones, select, of_records. cbn [columns rows].
  set (cols := unique [] (flat_map keys data)).
  destruct (locate cols ["Id"; "Codigo"; "Nombre"]) as [found |] eqn:Hl;
    cbn [bind]; [| discriminate].
  intros [= <-]. cbn [columns].
  revert Hl. simpl.
  assert (Hd : distinct cols = true) by apply unique_distinct.
  destruct (positions_one_or_none cols "Id" Hd) as [[i ->] | ->];
    [| discriminate].
  destruct (positions_one_or_none cols "Codigo" Hd) as [[j ->] | ->];
    [| discriminate].
  destruct (positions_one_or_none cols "Nombre" Hd) as [[k ->] | ->];
    [| discriminate].
  simpl. now intros [= <-].
Qed.

(** A search that matches no name prints the message and ends well. *)
Lemma operaciones_sin_coincidencias (pat : string) (data : list record)
    (df : DataFrame) (found : string -> bool) :
  get_operaciones data = Ok df -> pat <> "" ->
  re_search pat = Some found -> (forall name, found name = false) ->
  main (cmd_operaciones re_search (Some pat) data)
  = ([Msg "No se encontraron operaciones."], None, 0%Z).
Proof.
  intros Hdf Hpat Hre Hnone.
  pose proof (get_operaciones_columns data Hdf) as Hc.
  unfold cmd_operaciones. rewrite Hdf. unfold lift, io_bind at 1.
  assert (Hb : buscar_dado (Some pat) = Some pat).
  { destruct pat; [congruence | reflexivity]. }
  rewrite Hb. unfold getcol. rewrite Hc. cbn [positions String.eqb Ascii.eqb Bool.eqb bind].
  unfold str_contains. rewrite Hre. cbn [bind].
  unfold where_mask. rewrite filter_all_false.
  - rewrite Hc. reflexivity.
  - apply Forall_forall. intros b Hin. apply in_map_iff in Hin.
    destruct Hin as [[n x] [<- _]]. cbn [snd].
    destruct x as [| [| | | | name | |] | | | |]; auto.
Qed.

End Comandos.

(** C8, as the code has it.  On an empty list of operations the command
    prints nothing and ends with status 1, on the [KeyError] that the
    column selection of [get_operaciones] raises, whatever the search
    text; [tablas], which tests for the empty response first, prints its
    message and ends with status 0. *)
Theorem operaciones_respuesta_vacia
    (re_search : string -> option (string -> bool)) (buscar : option string)
    (id_operacion : Z) :
  main (cmd_operaciones re_search buscar []) = ([], Some (KeyError "Id"), 1%Z)
  /\ main (cmd_tablas id_operacion [])
     = ([MsgInt "No se encontraron tablas para la operacion " id_operacion "."],
        None, 0%Z).
Proof. split; reflexivity. Qed.

(** X15. The table the [datos] command prints, whenever it prints one, is
    the head of the selected columns: the first five rows of the frame. *)
Lemma cmd_datos_vista (id_tabla : Z) (output : option string)
    (raw : list record) (t : DataFrame) :
  In (Table t) (stdout (main (cmd_datos id_tabla output raw))) ->
  exists df vista,
    get_datos_tabla raw = Ok df
    /\ select df (filter (fun c => mem c (columns df)) ["Nombre"; "Fecha"; "Valor"])
       = Ok vista
    /\ rows t = firstn 5 (rows vista).
Proof.
  unfold cmd_datos, main, stdout, io_bind, lift, print, io_ret.
  destruct (get_datos_tabla raw) as [df |]; [| simpl; intuition discriminate].
  destruct (empty df); [simpl; intuition discriminate |].
  assert (Hrange : forall x l, date_range x = Ok l -> l <> Table t).
  { intros [s | d] l; simpl; [intros [= <-] |]; discriminate. }
  destruct (select df _) as [vista |] eqn:Hsel.
  - intros H. exists df, vista. split; [reflexivity |]. split; [exact Hsel |].
    revert H.
    destruct (mem "Nombre" (columns df));
      [destruct (x <- getcol df "Nombre" ;; nunique x) |];
      (destruct (mem "Fecha" (columns df));
       [destruct (getcol df "Fecha") as [x |]; cbn [bind];
        [destruct (date_range x) as [l |] eqn:Hl; [apply Hrange in Hl |] |] |]);
      destruct output as [path |]; try destruct (String.eqb path "");
      simpl; intros H;
      repeat match type of H with
             | _ \/ _ => destruct H as [H | H]
             end;
      try discriminate; try contradiction; try congruence;
      now inversion H.
  - intros H. exfalso. revert H.
    destruct (mem "Nombre" (columns df));
      [destruct (x <- getcol df "Nombre" ;; nunique x) |];
      (destruct (mem "Fecha" (columns df));
       [destruct (getcol df "Fecha") as [x |]; cbn [bind];
        [destruct (date_range x) as [l |] eqn:Hl; [apply Hrange in Hl |] |] |]);
      destruct output as [path |]; try destruct (String.eqb path "");
      simpl; intros H;
      repeat match type of H with
             | _ \/ _ => destruct H as [H | H]
             end;
      try discriminate; try contradiction; congruence.
Qed.

(** C9, as the code has it.  Of the six rows of the sample, the preview
    printed under the heading that announces the last five records shows
    the first five, valued 1 to 5; the last five are valued 2 to 6. *)
Theorem vista_previa_primeras_filas :
  exists df vista,
    get_datos_tabla seis = Ok df
    /\ stdout (main (cmd_datos 76092 None seis))
       = [MsgInt "Descargando tabla " 76092 "..."; MsgInt "Registros: " 6 "";
          Labels "Columnas: " ["Nombre"; "Valor"];
          Counts "Series unicas: " [1];
          Msg "Vista previa (ultimos 5 registros):"; Table vista]
    /\ body vista = firstn 5 (body df)
    /\ map (fun row => at_pos row 1) (body vista)
       = [Num 1; Num 2; Num 3; Num 4; Num 5]
    /\ map (fun row => at_pos row 1) (skipn (len df - 5) (body df))
       = [Num 2; Num 3; Num 4; Num 5; Num 6].
Proof.
  eexists. eexists. split; [reflexivity |]. split; [reflexivity |].
  repeat split; reflexivity.
Qed.

(* ===================================================================== *)
(** * Responses on which the two flattenings return *)
(* ===================================================================== *)

Section Total.







End Total.

(* ===================================================================== *)
(** * Further properties of the helper script *)
(* ===================================================================== *)

Section DescargaMas.

Lemma pares_length (datos : list record) :
  List.length (pares datos) = total_observaciones datos.
Proof.
  unfold pares, total_observaciones. rewrite length_flat_map_sum.
  f_equal. apply map_ext. intros serie. apply length_map.
Qed.

Lemma Forall2_length_eq {A B : Type} (R : A -> B -> Prop) (l : list A)
    (l' : list B) :
  Forall2 R l l' -> List.length l = List.length l'.
Proof. induction 1; simpl; congruence. Qed.



Lemma series_loop_total (datos : list record) (acc : list record) :
  completa datos -> exists filas, for_each por_serie datos acc = Ok filas.
Proof.
  intros Hall. revert acc.
  induction Hall as [| serie datos' (Hn & Hc & l & Hl & Hobs) _ IH];
    intros acc; simpl.
  - eauto.
  - unfold por_serie, get_default. rewrite Hl. cbn [iter bind].
    destruct (@observaciones_loop_total serie l acc Hn Hc Hobs) as [mid ->].
    cbn [bind]. apply IH.
Qed.

Lemma descargar_rows (datos : list record) (df : DataFrame) :
  descargar_tabla_ine_json datos = Ok df ->
  exists rs, for_each por_serie datos [] = Ok rs
             /\ Forall (fun r => keys r = cinco) rs
             /\ List.length rs = total_observaciones datos
             /\ df = of_records rs.
Proof.
  unfold descargar_tabla_ine_json.
  destruct (for_each por_serie datos []) as [filas |] eqn:Hloop; simpl;
    [| discriminate].
  intros [= <-]. exists filas. split; [reflexivity |].
  apply series_loop in Hloop. destruct Hloop as [rs [Heq Hrs]].
  simpl in Heq. subst filas. split; [| split; [| reflexivity]].
  - clear -Hrs. induction Hrs; constructor; eauto using fila_dict_keys.
  - rewrite <- pares_length. symmetry. eapply Forall2_length_eq. eassumption.
Qed.

Lemma body_of_records_cinco (rs : list record) :
  Forall (fun r => keys r = cinco) rs ->
  body (of_records rs) = map (row_of cinco) rs.
Proof.
  intros Hall. unfold body, of_records. cbn [rows]. rewrite number_map_snd.
  destruct rs as [| r rs]; [reflexivity |].
  now rewrite (columns_cinco Hall) by discriminate.
Qed.

End DescargaMas.

(** X1. On a complete response the helper returns a frame with one row per
    observation of the response, numbered from 0. *)
Theorem descargar_completa (datos : list record) :
  completa datos ->
  exists df,
    descargar_tabla_ine_json datos = Ok df
    /\ len df = total_observaciones datos
    /\ index df = seq 0 (total_observaciones datos).
Proof.
  intros Hc. destruct (descargar_total Hc) as [df Hdf].
  exists df. split; [assumption |].
  destruct (descargar_rows datos Hdf) as (rs & _ & _ & Hlen & ->).
  unfold len, index, of_records. cbn [rows].
  now rewrite number_length, number_map_fst, !length_map, Hlen.
Qed.

Lemma descargar_completa_witness :
  exists df,
    descargar_tabla_ine_json dos_series = Ok df
    /\ len df = 3
    /\ index df = [0; 1; 2].
Proof.
  apply (@descargar_completa dos_series).
  unfold completa, dos_series, obs.
  repeat first [apply Forall_cons | apply Forall_nil | split | eexists].
Defined.

(** X2. A series whose list of observations is empty adds no row and
    cannot fail: the call ends as it would without that record, even when
    the record has no name or code. *)
Theorem serie_sin_observaciones (antes despues : list record) (serie : record) :
  get "Data" serie = Some (VList []) ->
  descargar_tabla_ine_json (antes ++ serie :: despues)
  = descargar_tabla_ine_json (antes ++ despues).
Proof.
  intros H. unfold descargar_tabla_ine_json.
  rewrite !for_each_app.
  destruct (for_each por_serie antes []) as [filas |]; simpl; [| reflexivity].
  unfold por_serie at 1, get_default. rewrite H. reflexivity.
Qed.

Lemma serie_sin_observaciones_witness :
  descargar_tabla_ine_json
    ([hd [] dos_series] ++ [("Data", VList [])] :: tl dos_series)
  = descargar_tabla_ine_json dos_series.
Proof.
  apply (@serie_sin_observaciones [hd [] dos_series] (tl dos_series)
           [("Data", VList [])]).
  reflexivity.
Defined.



(** X4. A series with observations and no ["Nombre"] key stops the call
    with [KeyError("Nombre")], whatever the rows gathered before it and
    whatever follows it. *)
Theorem nombre_ausente_aborta (antes despues : list record) (serie : record)
    (o : value) (l : list value) :
  completa antes ->
  get "Nombre" serie = None ->
  get "Data" serie = Some (VList (o :: l)) ->
  descargar_tabla_ine_json (antes ++ serie :: despues)
  = Raise (KeyError "Nombre").
Proof.
  intros Hc Hn Hd. unfold descargar_tabla_ine_json.
  rewrite for_each_app.
  destruct (series_loop_total [] Hc) as [filas ->]. cbn [bind for_each].
  unfold por_serie, get_default. rewrite Hd. cbn [iter bind for_each].
  unfold fila, getitem. rewrite Hn. reflexivity.
Qed.

Lemma nombre_ausente_aborta_witness :
  descargar_tabla_ine_json sin_nombre = Raise (KeyError "Nombre").
Proof.
  apply (@nombre_ausente_aborta [hd [] sin_nombre] [] (hd [] (tl sin_nombre))
           (obs 1704067200000 1 2024 (VFloat (1201 # 10))) []).
  - unfold completa, sin_nombre, obs.
    repeat first [apply Forall_cons | apply Forall_nil | split | eexists].
  - reflexivity.
  - reflexivity.
Defined.

(** X5. A name that is not a string (a null, a number) stops the call with
    [AttributeError]: only strings can be stripped. *)
Theorem nombre_no_texto_aborta (antes despues : list record) (serie : record)
    (v o : value) (l : list value) :
  completa antes ->
  get "Nombre" serie = Some v ->
  (forall s, v <> VStr s) ->
  get "Data" serie = Some (VList (o :: l)) ->
  descargar_tabla_ine_json (antes ++ serie :: despues) = Raise AttributeError.
Proof.
  intros Hc Hn Hv Hd. unfold descargar_tabla_ine_json.
  rewrite for_each_app.
  destruct (series_loop_total [] Hc) as [filas ->]. cbn [bind for_each].
  unfold por_serie, get_default. rewrite Hd. cbn [iter bind for_each].
  unfold fila, getitem. rewrite Hn. cbn [bind].
  destruct v; try reflexivity. now destruct (Hv s).
Qed.

Lemma nombre_no_texto_aborta_witness :
  descargar_tabla_ine_json
    [[("Nombre", VNone); ("COD", VStr "C1");
      ("Data", VList [obs 0 1 2024 (VInt 1)])]]
  = Raise AttributeError.
Proof.
  apply (@nombre_no_texto_aborta [] []
           [("Nombre", VNone); ("COD", VStr "C1");
            ("Data", VList [obs 0 1 2024 (VInt 1)])]
           VNone (obs 0 1 2024 (VInt 1)) []).
  - constructor.
  - reflexivity.
  - discriminate.
  - reflexivity.
Defined.

Section Recorte.

Lemma rstrip_idempotent (s : string) : rstrip (rstrip s) = rstrip s.
Proof.
  induction s as [| c s IH]; simpl; [reflexivity |].
  destruct (rstrip s) as [| c' r] eqn:Hr.
  - destruct (isspace c) eqn:Hc; simpl; [reflexivity |]. now rewrite Hc.
  - simpl in *. now rewrite IH.
Qed.

Lemma lstrip_head (s : string) :
  match lstrip s with
  | EmptyString => True
  | String c _ => isspace c = false
  end.
Proof.
  induction s as [| c s IH]; simpl; [exact I |].
  destruct (isspace c) eqn:Hc; [exact IH | exact Hc].
Qed.

Lemma rstrip_head (c : ascii) (s : string) :
  isspace c = false -> exists r, rstrip (String c s) = String c r.
Proof.
  intros Hc. simpl. destruct (rstrip s); [rewrite Hc |]; eauto.
Qed.

Lemma lstrip_strip (s : string) : lstrip (strip s) = strip s.
Proof.
  unfold strip. pose proof (lstrip_head s) as H.
  destruct (lstrip s) as [| c t]; [reflexivity |].
  destruct (@rstrip_head c t H) as [r ->]. simpl. now rewrite H.
Qed.

Lemma rstrip_strip (s : string) : rstrip (strip s) = strip s.
Proof. unfold strip. apply rstrip_idempotent. Qed.

End Recorte.

(** X6. In every row the helper returns, the name is a string with no
    blank at its start or at its end: stripping it on either side leaves it
    as it is. *)
Theorem nombres_recortados (datos : list record) (df : DataFrame) :
  descargar_tabla_ine_json datos = Ok df ->
  Forall (fun row => exists s, at_pos row 0 = Obj (VStr s)
                               /\ lstrip s = s /\ rstrip s = s) (body df).
Proof.
  intros H. destruct (descargar_rows datos H) as (rs & Hloop & Hk & _ & ->).
  rewrite (body_of_records_cinco Hk).
  apply series_loop in Hloop. destruct Hloop as [rs' [Heq Hrs]].
  simpl in Heq. subst rs'. clear -Hrs.
  induction Hrs as [| p r ps rs Hp _ IH]; cbn [map]; constructor; [| exact IH].
  destruct Hp as (nombre & codigo & d & periodo & anyo & valor
                  & _ & _ & _ & _ & _ & _ & ->).
  exists (strip nombre). split; [reflexivity |].
  split; [apply lstrip_strip | apply rstrip_strip].
Qed.

Lemma nombres_recortados_witness :
  exists df,
    descargar_tabla_ine_json dos_series = Ok df
    /\ Forall (fun row => exists s, at_pos row 0 = Obj (VStr s)
                                    /\ lstrip s = s /\ rstrip s = s) (body df).
Proof.
  eexists. split; [reflexivity |].
  apply (@nombres_recortados dos_series). reflexivity.
Defined.

(* ===================================================================== *)
(** * Further properties of the command-line client *)
(* ===================================================================== *)

Section Seleccion.

Lemma presente_cols (data : list record) (c : string) :
  In c (unique [] (flat_map keys data)) <-> presente data c.
Proof.
  rewrite unique_In, in_flat_map. unfold presente. simpl. tauto.
Qed.

Lemma located_row (cols : list string) (r : record)
    (found : list (string * nat)) :
  Forall (fun ci => nth_error cols (snd ci) = Some (fst ci)) found ->
  map (at_pos (row_of cols r)) (map snd found) = row_of (map fst found) r.
Proof.
  induction 1 as [| [c i] found Hc _ IH]; simpl; [reflexivity |].
  simpl in Hc. rewrite (@at_pos_row_of cols r i c Hc). f_equal. exact IH.
Qed.

Lemma locate_inv (cols labels : list string) (found : list (string * nat)) :
  locate cols labels = Ok found -> forall c, In c labels -> In c cols.
Proof.
  revert found. induction labels as [| a labels IH]; intros found; simpl.
  - contradiction.
  - destruct (positions 0 a cols) as [| i ps] eqn:Hp; [discriminate |].
    destruct (locate cols labels) as [rest |]; [| discriminate].
    intros _ c [<- | Hc].
    + destruct (in_dec string_dec a cols) as [H | H]; [assumption |].
      apply (positions_nil a cols 0) in H. congruence.
    + eapply IH; eauto.
Qed.

(** Selecting labels that all occur in a response projects every record
    on them, in order. *)
Lemma select_of_records (data : list record) (labels : list string) :
  (forall c, In c labels -> presente data c) ->
  select (of_records data) labels
  = Ok (mkFrame labels (number 0 (map (row_of labels) data))).
Proof.
  intros Hall. unfold select, of_records. cbn [columns rows].
  set (cols := unique [] (flat_map keys data)).
  assert (Hd : distinct cols = true) by apply unique_distinct.
  assert (Hsub : forall c, In c labels -> In c cols).
  { intros c Hc. apply presente_cols. now apply Hall. }
  destruct (locate_ok cols labels Hd Hsub) as [found [Hl [Hf Hn]]].
  rewrite Hl. cbn [bind]. rewrite Hf. f_equal. f_equal.
  rewrite (number_map (fun row => map (at_pos row) (map snd found))).
  f_equal. rewrite map_map. apply map_ext. intros r.
  rewrite (@located_row cols r found Hn). now rewrite Hf.
Qed.

Lemma select_of_records_inv (data : list record) (labels : list string)
    (df : DataFrame) :
  select (of_records data) labels = Ok df ->
  forall c, In c labels -> presente data c.
Proof.
  unfold select, of_records. cbn [columns rows].
  destruct (locate _ labels) as [found |] eqn:Hl; [| discriminate].
  intros _ c Hc. apply presente_cols. eapply locate_inv; eauto.
Qed.

End Seleccion.



(** X8. [get_operaciones] returns a frame exactly when each of the three
    keys occurs in some record of the response; in particular it raises on
    the empty response. *)
Theorem get_operaciones_exito (data : list record) :
  (exists df, get_operaciones data = Ok df)
  <-> (forall c, In c ["Id"; "Codigo"; "Nombre"] -> presente data c).
Proof.
  unfold get_operaciones. split.
  - intros [df H]. eapply select_of_records_inv. eassumption.
  - intros Hall. rewrite (@select_of_records _ _ Hall). eauto.
Qed.



Section Abreviar.

Lemma length_append (a b : string) :
  String.length (a ++ b)%string = String.length a + String.length b.
Proof. induction a as [| c a IH]; simpl; [| rewrite IH]; reflexivity. Qed.

Lemma length_substring_0 (n : nat) (s : string) :
  String.length (substring 0 n s) = Nat.min n (String.length s).
Proof.
  revert s. induction n as [| n IH]; intros [| c s]; simpl; try reflexivity.
  now rewrite IH.
Qed.

End Abreviar.

(** X10. The name printed for a row is the name itself when it has at most
    [m] characters, and otherwise its first [n] characters followed by an
    ellipsis; with [n + 3 <= m], as in both listings (55 and 58, 60 and
    63), it never has more than [m] characters. *)
Theorem abreviar_acotado (m n : nat) (s : string) :
  n + 3 <= m ->
  exists s',
    abreviar m n (Obj (VStr s)) = Ok (Obj (VStr s'))
    /\ String.length s' <= m
    /\ (String.length s <= m -> s' = s)
    /\ (m < String.length s ->
        s' = (substring 0 n s ++ "...")%string /\ String.length s' = n + 3).
Proof.
  intros Hnm. unfold abreviar.
  destruct (Nat.ltb_spec m (String.length s)) as [Hlt | Hle].
  - exists (substring 0 n s ++ "...")%string. split; [reflexivity |].
    assert (Hlen : String.length (substring 0 n s ++ "...")%string = n + 3).
    { rewrite length_append, length_substring_0. simpl. lia. }
    repeat split; try lia.
  - exists s. repeat split; try lia.
Qed.

Lemma abreviar_acotado_witness :
  exists s',
    abreviar 58 55
      (Obj (VStr "Encuesta de Poblacion Activa con un nombre largo de mas de cincuenta y ocho caracteres"))
    = Ok (Obj (VStr s'))
    /\ String.length s' <= 58.
Proof.
  destruct (@abreviar_acotado 58 55
              "Encuesta de Poblacion Activa con un nombre largo de mas de cincuenta y ocho caracteres")
    as [s' [H [Hl _]]].
  - simpl. lia.
  - exists s'. split; assumption.
Defined.

Section ListadoOperaciones.

Variable re_search : string -> option (string -> bool).

Lemma get_operaciones_frame (data : list record) (df : DataFrame) :
  get_operaciones data = Ok df ->
  df = mkFrame tres (number 0 (map (row_of tres) data)).
Proof.
  intros H. unfold get_operaciones in H.
  pose proof (@select_of_records_inv _ _ _ H) as Hall.
  rewrite (@select_of_records _ _ Hall) in H. now injection H as <-.
Qed.

Lemma for_rows_ext {A : Type} (b1 b2 : A -> io unit) (l : list A) :
  (forall x, In x l -> b1 x = b2 x) -> for_rows b1 l = for_rows b2 l.
Proof.
  induction l as [| x l IH]; intros H; simpl; [reflexivity |].
  rewrite (H x (or_introl eq_refl)). f_equal. rewrite IH; [reflexivity |].
  intros y Hy. apply H. now right.
Qed.

Lemma for_rows_prints {A : Type} (body : A -> io unit) (f : A -> line)
    (l : list A) :
  (forall x, In x l -> body x = ([f x], Ok tt)) ->
  for_rows body l = (map f l, Ok tt).
Proof.
  induction l as [| x l IH]; intros H; simpl; [reflexivity |].
  rewrite (H x (or_introl eq_refl)). unfold io_bind.
  rewrite IH; [reflexivity |]. intros y Hy. apply H. now right.
Qed.




End ListadoOperaciones.



Lemma io_bind_lift_ok {A B : Type} (a : A) (f : A -> io B) :
  io_bind (lift (Ok a)) f = f a.
Proof. unfold io_bind, lift. now destruct (f a). Qed.

Lemma io_bind_lift_raise {A B : Type} (e : exn) (f : A -> io B) :
  io_bind (lift (Raise e)) f = ([], Raise e).
Proof. reflexivity. Qed.

Lemma getcol_nombre (rs : list (nat * list cell)) :
  getcol (mkFrame tres rs) "Nombre" = Ok (Series (column (mkFrame tres rs) 2)).
Proof. reflexivity. Qed.



(** X11. A search text that is not a regular expression ends the command
    with status 1 before anything is printed. *)
Theorem patron_invalido
    (re_search : string -> option (string -> bool)) (pat : string)
    (data : list record) (df : DataFrame) :
  get_operaciones data = Ok df ->
  pat <> "" ->
  re_search pat = None ->
  (exists r, In r data /\ nombre_de r <> None) ->
  stdout (main (cmd_operaciones re_search (Some pat) data)) = []
  /\ exit_code (main (cmd_operaciones re_search (Some pat) data)) = 1%Z.
Proof.
  intros Hdf Hpat Hre _.
  pose proof (get_operaciones_frame data Hdf) as Hframe.
  unfold cmd_operaciones. rewrite Hdf, io_bind_lift_ok.
  assert (Hb : buscar_dado (Some pat) = Some pat).
  { destruct pat; [congruence | reflexivity]. }
  rewrite Hb. subst df. rewrite getcol_nombre. cbn [bind].
  unfold str_contains. rewrite Hre. cbn [bind].
  rewrite io_bind_lift_raise. split; reflexivity.
Qed.

Lemma patron_invalido_witness :
  stdout (main (cmd_operaciones
                  (fun pat => if String.eqb pat "(" then None
                              else Some (fun _ => true))
                  (Some "(") operaciones)) = []
  /\ exit_code (main (cmd_operaciones
                        (fun pat => if String.eqb pat "(" then None
                                    else Some (fun _ => true))
                        (Some "(") operaciones)) = 1%Z.
Proof.
  eapply (@patron_invalido
            (fun pat => if String.eqb pat "(" then None else Some (fun _ => true))
            "(" operaciones).
  - reflexivity.
  - discriminate.
  - reflexivity.
  - exists (hd [] operaciones). split; [now left | discriminate].
Defined.






Lemma cmd_datos_vista_witness :
  exists t df vista,
    In (Table t) (stdout (main (cmd_datos 76092 None seis)))
    /\ get_datos_tabla seis = Ok df
    /\ select df (filter (fun c => mem c (columns df)) ["Nombre"; "Fecha"; "Valor"])
       = Ok vista
    /\ rows t = firstn 5 (rows vista)
    /\ len t = 5.
Proof.
  evar (t : DataFrame). exists t.
  assert (Hin : In (Table t) (stdout (main (cmd_datos 76092 None seis)))).
  { unfold t. simpl. do 5 right. left. reflexivity. }
  destruct (@cmd_datos_vista 76092 None seis t Hin) as (df & vista & Hdf & Hv & Hr).
  exists df, vista. repeat split; try assumption.
Defined.

(** X16. The file the [datos] command writes, whenever it writes one, is
    the one named by the [--output] argument and holds the whole flattened
    frame, not the preview. *)
Theorem exporta_todo (id_tabla : Z) (output : option string)
    (raw : list record) (path : string) (d : DataFrame) :
  In (CsvFile path d) (stdout (main (cmd_datos id_tabla output raw))) ->
  output = Some path /\ path <> "" /\ get_datos_tabla raw = Ok d.
Proof.
  unfold cmd_datos, main, stdout, io_bind, lift, print, io_ret.
  destruct (get_datos_tabla raw) as [df |]; [| simpl; intuition discriminate].
  destruct (empty df); [simpl; intuition discriminate |].
  assert (Hrange : forall x l, date_range x = Ok l -> l <> CsvFile path d).
  { intros [s | f] l; simpl; [intros [= <-] |]; discriminate. }
  destruct (mem "Nombre" (columns df));
    [destruct (x <- getcol df "Nombre" ;; nunique x) |];
    (destruct (mem "Fecha" (columns df));
     [destruct (getcol df "Fecha") as [x |]; cbn [bind];
      [destruct (date_range x) as [l |] eqn:Hl; [apply Hrange in Hl |] |] |]);
    try match goal with
        | |- context [select df ?c] => destruct (select df c) as [vista |]
        end;
    destruct output as [p |]; try destruct (String.eqb_spec p "");
    simpl; intros H;
    repeat match type of H with
           | _ \/ _ => destruct H as [H | H]
           end;
    try discriminate; try contradiction; try congruence;
    injection H as <- <-; auto.
Qed.

Lemma exporta_todo_witness :
  exists d,
    In (CsvFile "ipc.csv" d) (stdout (main (cmd_datos 76092 (Some "ipc.csv") seis)))
    /\ get_datos_tabla seis = Ok d
    /\ len d = 6.
Proof.
  evar (d : DataFrame). exists d.
  assert (Hin : In (CsvFile "ipc.csv" d)
                  (stdout (main (cmd_datos 76092 (Some "ipc.csv") seis)))).
  { unfold d. simpl. do 6 right. left. reflexivity. }
  destruct (@exporta_todo 76092 (Some "ipc.csv") seis "ipc.csv" d Hin)
    as (_ & _ & Hd).
  split; [exact Hin |]. split; [exact Hd | reflexivity].
Defined.

(** X17. When the flattened frame is empty (no row, or no column), the
    [datos] command prints that no data were obtained and ends with status
    0; it prints no summary and writes no file, even when one is asked
    for. *)
Theorem datos_sin_datos (id_tabla : Z) (output : option string)
    (raw : list record) (df : DataFrame) :
  get_datos_tabla raw = Ok df ->
  empty df = true ->
  main (cmd_datos id_tabla output raw)
  = ([MsgInt "Descargando tabla " id_tabla "..."; Msg "No se obtuvieron datos."],
     None, 0%Z).
Proof.
  intros Hdf He. unfold cmd_datos, main, io_bind, lift, print.
  now rewrite Hdf, He.
Qed.

Lemma datos_sin_datos_witness :
  main (cmd_datos 76092 (Some "ipc.csv") [[("Data", VList [])]])
  = ([MsgInt "Descargando tabla " 76092 "..."; Msg "No se obtuvieron datos."],
     None, 0%Z).
Proof.
  eapply (@datos_sin_datos 76092 (Some "ipc.csv") [[("Data", VList [])]]).
  - reflexivity.
  - reflexivity.
Defined.

(** X18. A non-empty response in which no series has a ["Data"] key makes
    [get_datos_tabla] raise [KeyError("Data")]: there is no column to
    explode. *)
Theorem sin_columna_data (raw : list record) :
  raw <> [] ->
  (forall serie, In serie raw -> get "Data" serie = None) ->
  get_datos_tabla raw = Raise (KeyError "Data").
Proof.
  intros Hne Hnone.
  assert (Hap : aplanar raw = Raise (KeyError "Data")).
  { unfold aplanar, explode, of_records. cbn [columns rows].
    rewrite unique_distinct. cbn [negb].
    assert (Hnil : positions 0 "Data" (unique [] (flat_map keys raw)) = []).
    { apply positions_nil. intros Hin. apply presente_cols in Hin.
      destruct Hin as [serie [Hs Hk]].
      apply (get_None_keys "Data" serie) in Hk; [assumption |]. now apply Hnone. }
    now rewrite Hnil. }
  unfold get_datos_tabla. destruct raw; [congruence |]. now rewrite Hap.
Qed.

Lemma sin_columna_data_witness :
  get_datos_tabla [suelta] = Raise (KeyError "Data").
Proof.
  apply (@sin_columna_data [suelta]).
  - discriminate.
  - intros serie [<- | []]. reflexivity.
Defined.

Section Repetida.

Lemma positions_present (c : string) (cols : list string) (k : nat) :
  In c cols -> 1 <= List.length (positions k c cols).
Proof.
  intros Hin.
  destruct (positions k c cols) eqn:Hp; [| simpl; lia].
  apply positions_nil in Hp. contradiction.
Qed.

Lemma positions_twice (c : string) (a b : list string) :
  In c a -> In c b -> 2 <= List.length (positions 0 c (a ++ b)).
Proof.
  intros Ha Hb. rewrite positions_app, length_app.
  pose proof (positions_present c a 0 Ha).
  pose proof (positions_present c b (0 + List.length a) Hb). lia.
Qed.

End Repetida.

(** X19. When a key named ["Fecha"] or ["Valor"] occurs both among the
    metadata of the series and among the fields of the observations, the
    flattened frame has the label twice and [get_datos_tabla] raises
    instead of returning it. *)
Theorem etiqueta_repetida (raw : list record) (df0 : DataFrame) (c : string) :
  aplanar raw = Ok df0 ->
  c = "Fecha" \/ c = "Valor" ->
  In c (cols_meta raw) -> In c (cols_values raw) ->
  exists e, get_datos_tabla raw = Raise e.
Proof.
  intros H0 Hc Hm Hv.
  destruct (get_datos_tabla raw) as [df | e] eqn:Hdf; [| eauto].
  exfalso.
  destruct (@get_datos_tabla_coerced raw df0 df H0 Hdf) as [Hf [Hvl _]].
  pose proof (@aplanar_ok raw df0 H0) as [Hcols _].
  pose proof (positions_twice c _ _ Hm Hv) as H2.
  rewrite Hcols in *. destruct Hc; subst c; lia.
Qed.

Lemma etiqueta_repetida_witness :
  exists e,
    get_datos_tabla
      [[("Nombre", VStr "S1"); ("Valor", VStr "x");
        ("Data", VList [VDict [("Valor", VStr "1")]])]]
    = Raise e.
Proof.
  eapply (@etiqueta_repetida _ _ "Valor").
  - reflexivity.
  - now right.
  - simpl. tauto.
  - simpl. tauto.
Defined.

Section Regular.


End Regular.




Section Observacion.

Lemma filter_distinct (f : string -> bool) (l : list string) :
  distinct l = true -> distinct (filter f l) = true.
Proof.
  induction l as [| c l IH]; simpl; [reflexivity |].
  intros H. apply andb_true_iff in H. destruct H as [Hc Hl].
  destruct (f c); simpl; [| now apply IH].
  rewrite IH by assumption. rewrite andb_true_r.
  apply negb_true_iff, mem_false. apply negb_true_iff, mem_false in Hc.
  intros Hin. apply filter_In in Hin. tauto.
Qed.



End Observacion.



(** X22. The columns of the flattened frame are the metadata keys of the
    series, every key but ["Data"] in order of first appearance, followed
    by the keys of the flattened observations in order of first
    appearance; no label repeats within either group. *)
Theorem columnas_aplanadas (raw : list record) (df : DataFrame) :
  get_datos_tabla raw = Ok df ->
  columns df = cols_meta raw ++ cols_values raw
  /\ distinct (cols_meta raw) = true
  /\ distinct (cols_values raw) = true
  /\ (forall k, In k (cols_meta raw) <-> k <> "Data" /\ presente raw k)
  /\ (forall k, In k (cols_values raw)
                <-> exists p, In p (entradas_de raw)
                              /\ In k (keys (aplanada (snd p)))).
Proof.
  intros H. destruct (@get_datos_tabla_ok raw df H) as [Hc _].
  split; [exact Hc |]. split; [| split; [| split]].
  - unfold cols_meta. apply filter_distinct. apply unique_distinct.
  - apply unique_distinct.
  - intros k. apply cols_meta_In.
  - intros k. unfold cols_values. rewrite unique_In, in_flat_map. split.
    + intros [[r [Hr Hk]] _]. apply in_map_iff in Hr.
      destruct Hr as [p [<- Hp]]. eauto.
    + intros [p [Hp Hk]]. split; [| simpl; tauto].
      exists (aplanada (snd p)). split; [| assumption].
      apply in_map_iff. eauto.
Qed.

Lemma columnas_aplanadas_witness :
  exists df,
    get_datos_tabla dos_series = Ok df
    /\ columns df = ["COD"; "Nombre"; "Fecha"; "FK_Periodo"; "Anyo"; "Valor"].
Proof.
  eexists. split; [reflexivity |].
  destruct (@columnas_aplanadas dos_series _ eq_refl) as [Hc _]. exact Hc.
Defined.

(** X23. Run as a program on a complete response, the helper script
    reports the number of observations, writes all the rows to
    [ipc_datos.csv] and reports the number again; when the flattening
    raises, nothing is printed and no file is written. *)
Theorem principal_informa (datos : list record) :
  (completa datos ->
   exists df,
     descargar_tabla_ine_json datos = Ok df
     /\ len df = total_observaciones datos
     /\ principal datos
        = ([MsgInt "" (Z.of_nat (total_observaciones datos)) " filas descargadas";
            CsvFile "ipc_datos.csv" df;
            MsgInt "Guardado ipc_datos.csv con "
              (Z.of_nat (total_observaciones datos)) " filas"], Ok tt))
  /\ (forall e, descargar_tabla_ine_json datos = Raise e ->
                principal datos = ([], Raise e)).
Proof.
  split.
  - intros Hc. destruct (descargar_total Hc) as [df Hdf].
    exists df. split; [assumption |].
    destruct (descargar_rows datos Hdf) as (rs & _ & _ & Hlen & Heq).
    assert (Hl : len df = total_observaciones datos).
    { subst df. unfold len, of_records. cbn [rows].
      now rewrite number_length, length_map. }
    split; [exact Hl |].
    unfold principal. rewrite Hdf, io_bind_lift_ok, Hl. reflexivity.
  - intros e He. unfold principal. now rewrite He.
Qed.

Lemma principal_informa_witness :
  exists df,
    descargar_tabla_ine_json dos_series = Ok df
    /\ len df = 3
    /\ principal dos_series
       = ([MsgInt "" 3 " filas descargadas"; CsvFile "ipc_datos.csv" df;
           MsgInt "Guardado ipc_datos.csv con " 3 " filas"], Ok tt).
Proof.
  destruct (principal_informa dos_series) as [H _].
  apply H. unfold completa, dos_series, obs.
  repeat first [apply Forall_cons | apply Forall_nil | split | eexists].
Defined.

Section ListadoTablas.



End ListadoTablas.


